(** * Auction platform: bid acceptance, republish and auction creation

    A shallow embedding of the request handlers of
    [controllers/bidController.js] ([placeBid]) and of the auction item
    controller that follows it in the same source file
    ([addNewAuctionItem], [republishItem]).

    The handlers run against a document store (users, auctions, standalone
    bid documents).  A handler is a function of the request, of the clock
    readings it takes and of the store; it yields what it hands to the
    client ([res.status(..).json(..)] or [next(err)]) and the store it
    leaves behind.  The body of [session.withTransaction] is written in a
    small state-and-exception monad and is committed atomically. *)

From Stdlib Require Import ZArith String Ascii Sorted.
From stdpp Require Import gmap strings list fin_maps.

Local Open Scope Z_scope.

(** ** JavaScript values of a request body *)

Module Js.

(** The scalar values a parsed JSON or url-encoded body can carry for one
    key; [JUndefined] is an absent key.  Arrays and objects are left out.
    Numbers are integers here, where the code has doubles: a fractional
    amount has no counterpart in this file, and an integer stands for the
    number of the code only as far as a double holds it exactly (see
    [exact]).  Statements that depend on the value of an amount say so by
    asking for [ToNumber v = Some n] and [exact n]. *)
Inductive JsVal :=
| JUndefined
| JNull
| JBool (b : bool)
| JNum (n : Z)
| JStr (s : string).

#[global] Instance JsVal_eq_dec : EqDecision JsVal.
Proof. solve_decision. Defined.

(** [!v] is [negb (truthy v)]. *)
Definition truthy (v : JsVal) : bool :=
  match v with
  | JUndefined | JNull => false
  | JBool b => b
  | JNum n => negb (n =? 0)
  | JStr s => negb (String.eqb s "")
  end.

Definition is_ws (c : ascii) : bool :=
  let n := nat_of_ascii c in
  (n =? 32)%nat || (n =? 9)%nat || (n =? 10)%nat || (n =? 13)%nat.

Definition digit_of (c : ascii) : option Z :=
  let n := nat_of_ascii c in
  if (48 <=? n)%nat && (n <=? 57)%nat then Some (Z.of_nat (n - 48)) else None.

Fixpoint drop_ws (s : string) : string :=
  match s with
  | String c r => if is_ws c then drop_ws r else s
  | EmptyString => EmptyString
  end.

Definition trim (s : string) : string :=
  String.rev (drop_ws (String.rev (drop_ws s))).

Fixpoint digits (acc : Z) (s : string) : option Z :=
  match s with
  | EmptyString => Some acc
  | String c r =>
      match digit_of c with
      | Some d => digits (10 * acc + d) r
      | None => None
      end
  end.

Definition unsigned_digits (s : string) : option Z :=
  match s with
  | EmptyString => None
  | _ => digits 0 s
  end.

(** [Number(s)] on the signed decimal integer literals, with blanks, tabs
    and line ends trimmed; an empty or blank string converts to 0.  [None]
    is NaN on these strings.  The other numeric literals of the language (a
    decimal point, an exponent, a radix prefix, [Infinity]) and its other
    white space are not converted: on such a string [None] does not stand
    for the code's result, and the statements that depend on the converted
    amount are limited to [ToNumber v = Some n]. *)
Definition StringToNumber (s : string) : option Z :=
  match trim s with
  | EmptyString => Some 0
  | String "-" r => Z.opp <$> unsigned_digits r
  | String "+" r => unsigned_digits r
  | t => unsigned_digits t
  end.

(** [ToNumber]; [None] is NaN. *)
Definition ToNumber (v : JsVal) : option Z :=
  match v with
  | JUndefined => None
  | JNull => Some 0
  | JBool b => Some (if b then 1 else 0)
  | JNum n => Some n
  | JStr s => StringToNumber s
  end.

(** [v <= n] and [v < n] against a number: a comparison with NaN is
    false.  The comparison is on integers; it is the comparison of the code
    when both sides are held exactly. *)
Definition le_num (v : JsVal) (n : Z) : bool :=
  match ToNumber v with Some a => a <=? n | None => false end.

Definition lt_num (v : JsVal) (n : Z) : bool :=
  match ToNumber v with Some a => a <? n | None => false end.

(** The integers that a JavaScript number holds exactly, whatever the way
    they were written.  On them the integers of this file and the numbers of
    the code agree: a body carries such an [n] as [n], a string of digits
    for it converts to [n], and comparisons are the same. *)
Definition exact (n : Z) : Prop := - 2 ^ 53 <= n <= 2 ^ 53.

End Js.
Import Js.

Lemma exact_small n : -1000000 <= n <= 1000000 -> exact n.
Proof.
  unfold exact. intros [Hlo Hhi]. split.
  - etrans; [|exact Hlo]. done.
  - etrans; [exact Hhi|]. done.
Defined.

(** ** Documents and the store *)

(** Identifiers ([_id]) are drawn from [nat]. *)
Abbreviation UserId := nat.
Abbreviation AuctionId := nat.

Record User := mkUser {
  userName : string;
  profileImage : option string;
  moneySpent : Z;
  auctionsWon : Z;
  unpaidCommission : Z
}.

(** An entry of the [bids] sub-array of an auction. *)
Record BidEntry := mkBidEntry {
  userId : UserId;
  entryUserName : string;
  entryProfileImage : option string;
  entryAmount : Z
}.

(** A standalone [Bid] document. *)
Record Bid := mkBid {
  amount : Z;
  bidderId : UserId;
  bidderUserName : string;
  bidderProfileImage : option string;
  auctionItem : AuctionId
}.

(** The descriptive fields of an auction, which no handler below reads
    back. *)
Record Listing := mkListing {
  title : JsVal;
  description : JsVal;
  category : JsVal;
  condition : JsVal;
  image_public_id : string;
  image_url : string
}.

Record Auction := mkAuction {
  listing : Listing;
  startingBid : Z;
  currentBid : Z;
  startTime : Z;
  endTime : Z;
  bids : list BidEntry;
  highestBidder : option UserId;
  commissionCalculated : bool;
  createdBy : UserId
}.

#[global] Instance User_eq_dec : EqDecision User.
Proof. solve_decision. Defined.
#[global] Instance BidEntry_eq_dec : EqDecision BidEntry.
Proof. solve_decision. Defined.
#[global] Instance Bid_eq_dec : EqDecision Bid.
Proof. solve_decision. Defined.
#[global] Instance Listing_eq_dec : EqDecision Listing.
Proof. solve_decision. Defined.
#[global] Instance Auction_eq_dec : EqDecision Auction.
Proof. solve_decision. Defined.

(** The three collections.  Users and auctions are keyed by [_id]; the
    standalone bids are kept in insertion order, since several documents
    may match one query. *)
Record Store := mkStore {
  users : gmap UserId User;
  auctions : gmap AuctionId Auction;
  bidDocs : list Bid
}.

(** Field assignments. *)
Definition set_entryAmount (n : Z) (e : BidEntry) : BidEntry :=
  mkBidEntry (userId e) (entryUserName e) (entryProfileImage e) n.

Definition set_amount (n : Z) (b : Bid) : Bid :=
  mkBid n (bidderId b) (bidderUserName b) (bidderProfileImage b) (auctionItem b).

Definition set_bids (l : list BidEntry) (a : Auction) : Auction :=
  mkAuction (listing a) (startingBid a) (currentBid a) (startTime a) (endTime a)
            l (highestBidder a) (commissionCalculated a) (createdBy a).

Definition set_currentBid (n : Z) (a : Auction) : Auction :=
  mkAuction (listing a) (startingBid a) n (startTime a) (endTime a)
            (bids a) (highestBidder a) (commissionCalculated a) (createdBy a).

Definition set_users (m : gmap UserId User) (s : Store) : Store :=
  mkStore m (auctions s) (bidDocs s).

Definition set_auctions (m : gmap AuctionId Auction) (s : Store) : Store :=
  mkStore (users s) m (bidDocs s).

Definition set_bidDocs (l : list Bid) (s : Store) : Store :=
  mkStore (users s) (auctions s) l.

(** ** Exceptions and replies *)

(** What a handler can throw or pass to [next]: an [ErrorHandler] built by
    the controller, or an exception of the store layer or of the runtime. *)
Inductive Foreign :=
| CastError          (* a value that the schema cannot convert *)
| DuplicateKey       (* an [_id] that is already taken *)
| TypeError          (* a property read on [undefined] *)
| UploadFailure.     (* the image host rejected the upload call *)

Inductive Exn :=
| ErrorHandler (message : string) (statusCode : option N)
| Thrown (cause : Foreign).

(** [catch (err)] of the transactional handlers: an [ErrorHandler] goes
    to [next] as it is; anything else is wrapped as
    [new ErrorHandler(err.message || fallback, 500)], kept here as
    [Rewrapped]. *)
Inductive NextArg :=
| Forwarded (e : Exn)
| Rewrapped (cause : Foreign).

Definition catch_rewrap (e : Exn) : NextArg :=
  match e with
  | ErrorHandler _ _ => Forwarded e
  | Thrown c => Rewrapped c
  end.

(** [catch (error)] of [addNewAuctionItem], which wraps whatever it
    catches: [new ErrorHandler(error.message || fallback, 500)]. *)
Definition catch_wrap (e : Exn) : NextArg :=
  match e with
  | ErrorHandler m _ => Forwarded (ErrorHandler m (Some 500%N))
  | Thrown c => Rewrapped c
  end.

Inductive Reply (A : Type) :=
| Json (status : N) (body : A)
| Next (e : NextArg).
Arguments Json {A} status body.
Arguments Next {A} e.

#[global] Instance Foreign_eq_dec : EqDecision Foreign.
Proof. solve_decision. Defined.
#[global] Instance Exn_eq_dec : EqDecision Exn.
Proof. solve_decision. Defined.
#[global] Instance NextArg_eq_dec : EqDecision NextArg.
Proof. solve_decision. Defined.

(** ** Transactions *)

Module Txn.

(** A computation inside [session.withTransaction]: it reads and writes
    the store, and may throw. *)
Definition t (A : Type) : Type := Store -> Exn + (A * Store).

Definition ret {A} (a : A) : t A := fun s => inr (a, s).

Definition bind {A B} (m : t A) (k : A -> t B) : t B :=
  fun s => match m s with
           | inl e => inl e
           | inr (a, s') => k a s'
           end.

Definition throw {A} (e : Exn) : t A := fun _ => inl e.

Definition gets {A} (f : Store -> A) : t A := fun s => inr (f s, s).

Definition modify (f : Store -> Store) : t unit := fun s => inr (tt, f s).

(** Nothing written by a body that throws is kept. *)
Definition withTransaction (body : t unit) (s : Store) : option Exn * Store :=
  match body s with
  | inl e => (Some e, s)
  | inr (_, s') => (None, s')
  end.

End Txn.

Declare Scope txn_scope.
Delimit Scope txn_scope with txn.
Notation "x <- m ;; k" := (Txn.bind m (fun x => k))
  (at level 100, m at next level, right associativity) : txn_scope.
Notation "m ;; k" := (Txn.bind m (fun _ => k))
  (at level 100, right associativity) : txn_scope.

(** ** Queries and writes of the models *)

Module Model.
Import Txn.

Definition Auction_findById (id : AuctionId) : t (option Auction) :=
  gets (fun s => auctions s !! id).

Definition User_findById (id : UserId) : t (option User) :=
  gets (fun s => users s !! id).

(** [Bid.findOne({ "bidder.id": u, auctionItem: a })]: the first match,
    with its position so that it can be saved back. *)
Definition Bid_findOne (u : UserId) (a : AuctionId) : t (option (nat * Bid)) :=
  gets (fun s => list_find (fun b => bidderId b = u /\ auctionItem b = a) (bidDocs s)).

Definition Bid_save (i : nat) (b : Bid) : t unit :=
  modify (fun s => set_bidDocs (<[i := b]> (bidDocs s)) s).

Definition Bid_insert (b : Bid) : t unit :=
  modify (fun s => set_bidDocs (bidDocs s ++ [b]) s).

(** [Bid.deleteMany({ auctionItem: a })]. *)
Definition Bid_deleteMany (a : AuctionId) : t unit :=
  modify (fun s => set_bidDocs (filter (fun b => auctionItem b <> a) (bidDocs s)) s).

Definition Auction_save (id : AuctionId) (a : Auction) : t unit :=
  modify (fun s => set_auctions (<[id := a]> (auctions s)) s).

Definition User_save (id : UserId) (u : User) : t unit :=
  modify (fun s => set_users (<[id := u]> (users s)) s).

(** Modelled from the spec: the schemas under [models/] are not part of
    the sources at hand; the spec's data model makes every amount a number.
    Assigning a body value to such a field converts it with [Number(..)]
    when it is a string or a boolean, and a value that does not convert
    makes the next [save] of the document throw.  An absent value never
    gets here: every handler turns a falsy value away first. *)
Definition castNumber (v : JsVal) : t Z :=
  match v with
  | JUndefined | JNull => throw (Thrown CastError)
  | _ => match ToNumber v with
         | Some n => ret n
         | None => throw (Thrown CastError)
         end
  end.

End Model.

(** ** [placeBid] *)

(** [req.params.id] once mongoose has looked at it: a string that is no
    ObjectId makes [findById] throw, and [isValid] answer false. *)
Inductive IdParam :=
| Malformed
| ObjectId (id : nat).

Record BidRequest := mkBidRequest {
  bid_params_id : IdParam;
  bid_user : UserId;          (* req.user._id *)
  body_amount : JsVal         (* req.body.amount *)
}.

Module Bidding.
Import Txn Model.
Local Open Scope txn_scope.

Definition not_found : Exn := ErrorHandler "Auction Item not found." (Some 404%N).
Definition no_amount : Exn := ErrorHandler "Please place your bid." (Some 404%N).
Definition bid_too_low : Exn :=
  ErrorHandler "Bid amount must be greater than the current bid." (Some 404%N).
Definition below_starting_bid : Exn :=
  ErrorHandler "Bid amount must be greater than starting bid." (Some 404%N).
Definition user_not_found : Exn := ErrorHandler "User not found." (Some 500%N).

(** Lines 9-27: the read outside the transaction and the checks made on
    it.  [inl e] is [return next(e)]; [inr id] goes on to the
    transaction. *)
Definition placeBid_checks (req : BidRequest) (s : Store) : NextArg + AuctionId :=
  match bid_params_id req with
  | Malformed => inl (Forwarded (Thrown CastError))
  | ObjectId id =>
      match auctions s !! id with
      | None => inl (Forwarded not_found)
      | Some auctionItem =>
          let amount := body_amount req in
          if negb (truthy amount) then inl (Forwarded no_amount)
          else if le_num amount (currentBid auctionItem) then inl (Forwarded bid_too_low)
          else if lt_num amount (startingBid auctionItem) then
            inl (Forwarded below_starting_bid)
          else inr id
      end
  end.

(** Lines 31-94: the body of the transaction. *)
Definition placeBid_body (id : AuctionId) (user : UserId) (amount : JsVal) : t unit :=
  found <- Auction_findById id ;;
  match found with
  | None => throw not_found
  | Some auction =>
      existingBid <- Bid_findOne user id ;;
      let existingBidInAuction := list_find (fun b => userId b = user) (bids auction) in
      auction <-
        match existingBid, existingBidInAuction with
        | Some (i, bid), Some (j, entry) =>
            n <- castNumber amount ;;
            Bid_save i (set_amount n bid) ;;
            let auction := set_bids (<[j := set_entryAmount n entry]> (bids auction)) auction in
            Auction_save id auction ;;
            ret auction
        | _, _ =>
            bidderDetail <- User_findById user ;;
            match bidderDetail with
            | None => throw user_not_found
            | Some bidderDetail =>
                n <- castNumber amount ;;
                Bid_insert (mkBid n user (userName bidderDetail)
                                  (profileImage bidderDetail) id) ;;
                let auction :=
                  set_bids (bids auction ++
                              [mkBidEntry user (userName bidderDetail)
                                          (profileImage bidderDetail) n]) auction in
                Auction_save id auction ;;
                ret auction
            end
        end ;;
      n <- castNumber amount ;;
      Auction_save id (set_currentBid n auction)
  end.

(** Lines 29-112: the transaction, the reply and the [catch]. *)
Definition placeBid_commit (id : AuctionId) (req : BidRequest) (s : Store)
  : Reply JsVal * Store :=
  match withTransaction (placeBid_body id (bid_user req) (body_amount req)) s with
  | (Some e, s') => (Next (catch_rewrap e), s')
  | (None, s') => (Json 201%N (body_amount req), s')
  end.

(** The handler.  Its two reads of the auction are two awaits: [s0] is
    the store seen by the first [findById], [s1] the store on which the
    transaction runs, which other requests may have written in between.
    A request that is turned away before the transaction writes nothing. *)
Definition placeBid (req : BidRequest) (s0 s1 : Store) : Reply JsVal * Store :=
  match placeBid_checks req s0 with
  | inl e => (Next e, s1)
  | inr id => placeBid_commit id req s1
  end.

(** A request served with no other writer in between. *)
Definition placeBid_alone (req : BidRequest) (s : Store) : Reply JsVal * Store :=
  placeBid req s s.

End Bidding.

(** ** Times in a request body *)

(** A body value read as a time: what [!v] and [new Date(v)] make of it.
    [Time t] is a truthy value that parses to the instant [t]
    (milliseconds).  [BadTime stored] is a truthy value that [new Date]
    parses to an Invalid Date, whose comparisons are all false; [stored] is
    what the store makes of the raw value when a document is created with
    it, if it takes it. *)
Inductive TimeVal :=
| NoTime
| BadTime (stored : option Z)
| Time (t : Z).

Definition time_given (v : TimeVal) : bool :=
  match v with NoTime => false | _ => true end.

(** [new Date(v)]: [None] is the Invalid Date. *)
Definition newDate (v : TimeVal) : option Z :=
  match v with Time t => Some t | _ => None end.

(** Modelled from the spec: the schema of [Auction] is not part of the
    sources at hand.  The instant that the store keeps for a raw body value
    handed to [Auction.create]; [None] when it refuses the value. *)
Definition storedDate (v : TimeVal) : option Z :=
  match v with
  | Time t => Some t
  | BadTime stored => stored
  | NoTime => None
  end.

Definition date_lt (a b : option Z) : bool :=
  match a, b with Some x, Some y => x <? y | _, _ => false end.

Definition date_ge (a b : option Z) : bool :=
  match a, b with Some x, Some y => y <=? x | _, _ => false end.

(** Modelled from the spec: the schema of [Auction] is not part of the
    sources at hand; the spec's data model makes [startTime] and [endTime]
    instants, and a document holding an Invalid Date is refused at [save]. *)
Definition castDate (d : option Z) : Txn.t Z :=
  match d with
  | Some t => Txn.ret t
  | None => Txn.throw (Thrown CastError)
  end.

(** ** [republishItem] *)

Record RepublishRequest := mkRepublishRequest {
  rep_params_id : IdParam;
  rep_user : UserId;            (* req.user._id *)
  rep_startTime : TimeVal;      (* req.body.startTime *)
  rep_endTime : TimeVal         (* req.body.endTime *)
}.

Definition set_moneySpent (n : Z) (u : User) : User :=
  mkUser (userName u) (profileImage u) n (auctionsWon u) (unpaidCommission u).

Definition set_auctionsWon (n : Z) (u : User) : User :=
  mkUser (userName u) (profileImage u) (moneySpent u) n (unpaidCommission u).

Definition set_unpaidCommission (n : Z) (u : User) : User :=
  mkUser (userName u) (profileImage u) (moneySpent u) (auctionsWon u) n.

Module Republish.
Import Txn Model.
Local Open Scope txn_scope.

Definition invalid_id : Exn := ErrorHandler "Invalid Id format." (Some 400%N).
Definition times_mandatory : Exn :=
  ErrorHandler "Starttime and Endtime for republish is mandatory." None.
Definition start_in_past : Exn :=
  ErrorHandler "Auction starting time must be greater than present time" (Some 400%N).
Definition start_not_before_end : Exn :=
  ErrorHandler "Auction starting time must be less than ending time." (Some 400%N).
Definition not_found : Exn := ErrorHandler "Auction not found." (Some 404%N).
Definition still_active : Exn :=
  ErrorHandler "Auction is already active, cannot republish" (Some 400%N).
Definition bidder_not_found : Exn :=
  ErrorHandler "Highest bidder not found." (Some 500%N).
Definition creator_not_found : Exn :=
  ErrorHandler "Creator user not found." (Some 500%N).

(** The reset of step 3: six assignments on the fetched document. *)
Definition reset_auction (newStart newEnd : Z) (a : Auction) : Auction :=
  mkAuction (listing a) (startingBid a) 0 newStart newEnd [] None false (createdBy a).

(** The body of the transaction; [now] is the reading of [Date.now()]
    taken inside it.  The rollback of line 398 subtracts integers here; on
    fractional amounts the code's subtraction rounds. *)
Definition republish_body (id : AuctionId) (user : UserId)
           (newStart newEnd : option Z) (now : Z) : t unit :=
  found <- Auction_findById id ;;
  match found with
  | None => throw not_found
  | Some auctionItem =>
      if now <? endTime auctionItem then throw still_active
      else
        match highestBidder auctionItem with
        | Some h =>
            hb <- User_findById h ;;
            match hb with
            | None => throw bidder_not_found
            | Some hb =>
                let hb := set_moneySpent (moneySpent hb - currentBid auctionItem) hb in
                let hb := set_auctionsWon (auctionsWon hb - 1) hb in
                User_save h hb
            end
        | None => ret tt
        end ;;
        st <- castDate newStart ;;
        en <- castDate newEnd ;;
        Auction_save id (reset_auction st en auctionItem) ;;
        Bid_deleteMany id ;;
        creator <- User_findById user ;;
        match creator with
        | None => throw creator_not_found
        | Some creator => User_save user (set_unpaidCommission 0 creator)
        end
  end.

(** The handler; [now1] is the clock at the check of the new window,
    [now2] the clock inside the transaction.  The reply carries the
    auction as read back after the commit. *)
Definition republishItem (req : RepublishRequest) (now1 now2 : Z) (s : Store)
  : Reply (option Auction) * Store :=
  match rep_params_id req with
  | Malformed => (Next (Forwarded invalid_id), s)
  | ObjectId id =>
      if negb (time_given (rep_startTime req)) || negb (time_given (rep_endTime req))
      then (Next (Forwarded times_mandatory), s)
      else
        let newStart := newDate (rep_startTime req) in
        let newEnd := newDate (rep_endTime req) in
        if date_lt newStart (Some now1) then (Next (Forwarded start_in_past), s)
        else if date_ge newStart newEnd then (Next (Forwarded start_not_before_end), s)
        else
          match withTransaction
                  (republish_body id (rep_user req) newStart newEnd now2) s with
          | (Some e, s') => (Next (catch_rewrap e), s')
          | (None, s') => (Json 200%N (auctions s' !! id), s')
          end
  end.

End Republish.

(** ** [addNewAuctionItem] *)

(** [req.files]: nothing uploaded, files but none under the key [image],
    or an image with its MIME type. *)
Inductive ReqFiles :=
| NoFiles
| NoImageKey
| Image (mimetype : string).

(** What the image host answers to the upload. *)
Inductive UploadOutcome :=
| UploadThrows
| NoResponse                          (* a falsy response *)
| ResponseWithError                   (* a response that carries [error] *)
| Uploaded (public_id secure_url : string).

Record NewAuctionRequest := mkNewAuctionRequest {
  new_files : ReqFiles;
  new_user : UserId;          (* req.user._id *)
  new_title : JsVal;
  new_description : JsVal;
  new_category : JsVal;
  new_condition : JsVal;
  new_startingBid : JsVal;
  new_startTime : TimeVal;
  new_endTime : TimeVal
}.

Module Listings.
Import Txn Model.

Definition image_required : Exn :=
  ErrorHandler "Auction item image required." (Some 400%N).
Definition format_not_supported : Exn :=
  ErrorHandler "File format not supported." (Some 400%N).
Definition all_details : Exn :=
  ErrorHandler "Please provide all details." (Some 400%N).
Definition start_in_past : Exn :=
  ErrorHandler "Auction starting time must be greater than present time." (Some 400%N).
Definition start_not_before_end : Exn :=
  ErrorHandler "Auction starting time must be less than ending time." (Some 400%N).
Definition already_active : Exn :=
  ErrorHandler "You already have one active auction." (Some 400%N).
Definition upload_failed : Exn :=
  ErrorHandler "Failed to upload auction image to cloudinary." (Some 500%N).

Definition allowedFormats : list string := ["image/png"; "image/jpeg"; "image/webp"].

(** [Auction.find({ createdBy: u, endTime: { $gt: now } })]. *)
Definition active_auctions_of (u : UserId) (now : Z) (s : Store)
  : list (AuctionId * Auction) :=
  map_to_list (filter (fun p => createdBy p.2 = u /\ now < endTime p.2) (auctions s)).

(** Lines 197-242: the checks made on the request alone; [now] is the
    reading of [Date.now()] in the check on the starting time. *)
Definition addNewAuctionItem_validate (req : NewAuctionRequest) (now : Z)
  : option NextArg :=
  match new_files req with
  | NoFiles => Some (Forwarded image_required)
  | NoImageKey => Some (Forwarded (Thrown TypeError))
  | Image mimetype =>
      if negb (bool_decide (mimetype ∈ allowedFormats))
      then Some (Forwarded format_not_supported)
      else if negb (truthy (new_title req)) || negb (truthy (new_description req))
              || negb (truthy (new_category req)) || negb (truthy (new_condition req))
              || negb (truthy (new_startingBid req))
              || negb (time_given (new_startTime req))
              || negb (time_given (new_endTime req))
      then Some (Forwarded all_details)
      else if date_lt (newDate (new_startTime req)) (Some now)
      then Some (Forwarded start_in_past)
      else if date_ge (newDate (new_startTime req)) (newDate (new_endTime req))
      then Some (Forwarded start_not_before_end)
      else None
  end.

(** Lines 197-250: the checks up to the one on active auctions.  [now1]
    and [now2] are the two readings of [Date.now()]. *)
Definition addNewAuctionItem_checks (req : NewAuctionRequest) (now1 now2 : Z) (s : Store)
  : option NextArg :=
  match addNewAuctionItem_validate req now1 with
  | Some e => Some e
  | None =>
      let alreadyOneAuctionActive := active_auctions_of (new_user req) now2 s in
      if bool_decide (0 < length alreadyOneAuctionActive)%nat
      then Some (Forwarded already_active)
      else None
  end.

(** Modelled from the spec: the defaults of the [Auction] schema, which is
    not part of the sources at hand; an auction is created open, with
    [currentBid] 0, no bids, no highest bidder and
    [commissionCalculated] false. *)
Definition new_auction (l : Listing) (startingBid startTime endTime : Z)
           (createdBy : UserId) : Auction :=
  mkAuction l startingBid 0 startTime endTime [] None false createdBy.

(** [Auction.create({..})] of lines 267-280: it is given the body values
    as they came ([startTime] and [endTime] are not the dates that the checks
    parsed), and the document gets the [_id] the driver drew. *)
Definition Auction_create (req : NewAuctionRequest) (public_id secure_url : string)
           (newId : AuctionId) : t Auction :=
  bind (castNumber (new_startingBid req)) (fun sb =>
  bind (castDate (storedDate (new_startTime req))) (fun st =>
  bind (castDate (storedDate (new_endTime req))) (fun en =>
  bind (gets (fun s => auctions s !! newId)) (fun taken =>
  match taken with
  | Some _ => throw (Thrown DuplicateKey)
  | None =>
      let l := mkListing (new_title req) (new_description req) (new_category req)
                         (new_condition req) public_id secure_url in
      let a := new_auction l sb st en (new_user req) in
      bind (Auction_save newId a) (fun _ => ret a)
  end)))).

(** Lines 252-291: the upload and the creation, inside [try]. *)
Definition addNewAuctionItem_create (req : NewAuctionRequest) (up : UploadOutcome)
           (newId : AuctionId) (s : Store) : Reply Auction * Store :=
  match up with
  | UploadThrows => (Next (Rewrapped UploadFailure), s)
  | NoResponse => (Next (Rewrapped TypeError), s)
  | ResponseWithError => (Next (Forwarded upload_failed), s)
  | Uploaded public_id secure_url =>
      match Auction_create req public_id secure_url newId s with
      | inl e => (Next (catch_wrap e), s)
      | inr (auctionItem, s') => (Json 201%N auctionItem, s')
      end
  end.

(** The handler: [s0] is the store that the query on active auctions
    sees, [s1] the store into which the auction is created, after the
    upload. *)
Definition addNewAuctionItem (req : NewAuctionRequest) (now1 now2 : Z)
           (up : UploadOutcome) (newId : AuctionId) (s0 s1 : Store)
  : Reply Auction * Store :=
  match addNewAuctionItem_checks req now1 now2 s0 with
  | Some e => (Next e, s1)
  | None => addNewAuctionItem_create req up newId s1
  end.

End Listings.

(** * Properties *)

(** ** Lists of documents *)

Section ListFacts.
Context {A : Type} (P : A -> Prop) `{!forall x, Decision (P x)}.

Lemma filter_find_None (l : list A) :
  list_find P l = None -> filter P l = [].
Proof.
  rewrite list_find_None. induction 1 as [|x l Hx _ IH]; [done|].
  rewrite filter_cons_False by done. exact IH.
Qed.

Lemma filter_find_Some (l : list A) i x :
  list_find P l = Some (i, x) -> (0 < length (filter P l))%nat.
Proof.
  intros (Hi & Hx & _)%list_find_Some.
  assert (x ∈ filter P l) as Hin.
  { apply list_elem_of_filter. split; [done|]. by eapply list_elem_of_lookup_2. }
  destruct (filter P l); [by apply elem_of_nil in Hin | simpl; lia].
Qed.

Lemma filter_length_insert (l : list A) i x y :
  l !! i = Some x -> (P x <-> P y) ->
  length (filter P (<[i := y]> l)) = length (filter P l).
Proof.
  revert i. induction l as [|z l IH]; intros [|i] Hi Hxy; simplify_eq/=.
  - destruct (decide (P x)) as [Hx|Hx].
    + rewrite !filter_cons_True by tauto. done.
    + rewrite !filter_cons_False by tauto. done.
  - destruct (decide (P z)) as [Hz|Hz].
    + rewrite !filter_cons_True by done. simpl. by rewrite (IH i).
    + rewrite !filter_cons_False by done. by apply IH.
Qed.

Lemma filter_length_snoc (l : list A) y :
  length (filter P (l ++ [y])) =
  (length (filter P l) + (if decide (P y) then 1 else 0))%nat.
Proof.
  rewrite filter_app, length_app. f_equal.
  destruct (decide (P y)).
  - by rewrite filter_cons_True.
  - by rewrite filter_cons_False.
Qed.

Lemma list_find_insert_kept (l : list A) j x y :
  list_find P l = Some (j, x) -> P y -> list_find P (<[j := y]> l) = Some (j, y).
Proof.
  intros (Hj & Hx & Hbefore)%list_find_Some Hy. apply list_find_Some.
  split; [|split; [done|]].
  - apply list_lookup_insert_eq. by eapply lookup_lt_Some.
  - intros k z Hk Hlt. rewrite list_lookup_insert_ne in Hk by lia. by eapply Hbefore.
Qed.

End ListFacts.

(** ** What [placeBid] computes *)

Module BiddingFacts.
Import Txn Model Bidding.

(** The number a body value is stored as, when it has one. *)
Definition stored_as (v : JsVal) : option Z :=
  match v with
  | JUndefined | JNull => None
  | _ => ToNumber v
  end.

Lemma castNumber_run v s :
  castNumber v s =
  match stored_as v with Some n => inr (n, s) | None => inl (Thrown CastError) end.
Proof. destruct v; simpl; try done; by destruct (StringToNumber _). Qed.

Lemma stored_as_truthy v n :
  truthy v = true -> ToNumber v = Some n -> stored_as v = Some n.
Proof. by destruct v. Qed.

(** The checks let a request through exactly when the auction is there,
    the amount is truthy, and neither comparison holds. *)
Lemma placeBid_checks_inr req s id :
  placeBid_checks req s = inr id <->
  bid_params_id req = ObjectId id /\
  exists a, auctions s !! id = Some a /\
            truthy (body_amount req) = true /\
            le_num (body_amount req) (currentBid a) = false /\
            lt_num (body_amount req) (startingBid a) = false.
Proof.
  unfold placeBid_checks. split.
  - destruct (bid_params_id req) as [|id']; [done|].
    destruct (auctions s !! id') as [a|] eqn:Ha; [|done].
    destruct (truthy (body_amount req)) eqn:Ht; simpl; [|done].
    destruct (le_num _ (currentBid a)) eqn:Hle; [done|].
    destruct (lt_num _ (startingBid a)) eqn:Hlt; [done|].
    intros [= <-]. split; [done|]. by exists a.
  - intros (Hp & a & Ha & Ht & Hle & Hlt).
    by rewrite Hp, Ha, Ht, Hle, Hlt.
Qed.

(** The store after an amount revision (both records found). *)
Definition revised (id : AuctionId) (n : Z) (i : nat) (bid : Bid)
           (j : nat) (entry : BidEntry) (a : Auction) (s : Store) : Store :=
  mkStore (users s)
          (<[id := set_currentBid n
                     (set_bids (<[j := set_entryAmount n entry]> (bids a)) a)]>
             (auctions s))
          (<[i := set_amount n bid]> (bidDocs s)).

(** The store after an insertion (the [else] branch). *)
Definition inserted (id : AuctionId) (user : UserId) (n : Z) (d : User)
           (a : Auction) (s : Store) : Store :=
  mkStore (users s)
          (<[id := set_currentBid n
                     (set_bids (bids a ++
                                  [mkBidEntry user (userName d) (profileImage d) n]) a)]>
             (auctions s))
          (bidDocs s ++ [mkBid n user (userName d) (profileImage d) id]).

Definition existingBid (user : UserId) (id : AuctionId) (s : Store) :=
  list_find (fun b => bidderId b = user /\ auctionItem b = id) (bidDocs s).

Definition existingBidInAuction (user : UserId) (a : Auction) :=
  list_find (fun b => userId b = user) (bids a).

Lemma placeBid_body_missing id user v s :
  auctions s !! id = None ->
  placeBid_body id user v s = inl not_found.
Proof. intros H. unfold placeBid_body, bind, Auction_findById, gets. by rewrite H. Qed.

Lemma placeBid_body_revise id user v s a i bid j entry :
  auctions s !! id = Some a ->
  existingBid user id s = Some (i, bid) ->
  existingBidInAuction user a = Some (j, entry) ->
  placeBid_body id user v s =
  match stored_as v with
  | Some n => inr (tt, revised id n i bid j entry a s)
  | None => inl (Thrown CastError)
  end.
Proof.
  intros Ha Hb He. unfold existingBid, existingBidInAuction in *.
  unfold placeBid_body, bind, Auction_findById, Bid_findOne, gets. rewrite Ha, Hb, He.
  rewrite castNumber_run. destruct (stored_as v) as [n|] eqn:Hv; [|done].
  unfold Bid_save, Auction_save, modify, ret. rewrite castNumber_run, Hv.
  unfold revised, set_auctions, set_bidDocs. simpl. by rewrite insert_insert_eq.
Qed.

Lemma placeBid_body_insert id user v s a :
  auctions s !! id = Some a ->
  existingBid user id s = None \/ existingBidInAuction user a = None ->
  placeBid_body id user v s =
  match users s !! user with
  | None => inl user_not_found
  | Some d =>
      match stored_as v with
      | Some n => inr (tt, inserted id user n d a s)
      | None => inl (Thrown CastError)
      end
  end.
Proof.
  intros Ha Hnone. unfold existingBid, existingBidInAuction in *.
  unfold placeBid_body, bind, Auction_findById, Bid_findOne, gets. rewrite Ha.
  destruct Hnone as [Hn | Hn]; rewrite Hn;
    [| destruct (list_find _ (bidDocs s)) as [[i0 b0]|]];
    cbv beta iota; unfold User_findById, gets;
    (destruct (users s !! user) as [d|]; [|done]);
    rewrite castNumber_run;
    (destruct (stored_as v) as [m|] eqn:Hv; [|done]);
    unfold Bid_insert, Auction_save, modify, ret;
    rewrite castNumber_run, Hv;
    unfold inserted, set_auctions, set_bidDocs; simpl;
    by rewrite insert_insert_eq.
Qed.

End BiddingFacts.

(** ** The two representations of a bid *)

Module Ledger.
Import Txn Model Bidding BiddingFacts.

(** How many embedded entries an auction holds for a bidder, and how many
    standalone documents the store holds for a (bidder, auction) pair. *)
Definition entries_of (u : UserId) (a : Auction) : nat :=
  length (filter (fun e => userId e = u) (bids a)).

Definition docs_of (u : UserId) (id : AuctionId) (s : Store) : nat :=
  length (filter (fun b => bidderId b = u /\ auctionItem b = id) (bidDocs s)).

(** At most one embedded entry per bidder in every auction, and at most
    one standalone document per (bidder, auction) pair. *)
Definition one_per_bidder (s : Store) : Prop :=
  (forall id a u, auctions s !! id = Some a -> (entries_of u a <= 1)%nat) /\
  (forall u id, (docs_of u id s <= 1)%nat).

(** The two representations agree on whether the pair has a bid: both
    are there or both are missing.  This is a statement about an auction
    that is in the store; of a pair whose auction is not there it says
    nothing, so standalone bids left behind by [removeFromAuction] are not
    counted as out of step. *)
Definition in_step (u : UserId) (id : AuctionId) (s : Store) : Prop :=
  forall a, auctions s !! id = Some a ->
            (entries_of u a = 0%nat <-> docs_of u id s = 0%nat).

Lemma existingBid_None u id s :
  existingBid u id s = None <-> docs_of u id s = 0%nat.
Proof.
  unfold existingBid, docs_of. split.
  - intros H. by rewrite (filter_find_None _ _ H).
  - intros H. destruct (list_find _ _) as [[i b]|] eqn:Hf; [|done].
    apply filter_find_Some in Hf. lia.
Qed.

Lemma existingBidInAuction_None u a :
  existingBidInAuction u a = None <-> entries_of u a = 0%nat.
Proof.
  unfold existingBidInAuction, entries_of. split.
  - intros H. by rewrite (filter_find_None _ _ H).
  - intros H. destruct (list_find _ _) as [[i b]|] eqn:Hf; [|done].
    apply filter_find_Some in Hf. lia.
Qed.

(** Counts after an amount revision: nothing moves. *)
Lemma entries_of_revised u n j entry a :
  bids a !! j = Some entry ->
  entries_of u (set_currentBid n (set_bids (<[j := set_entryAmount n entry]> (bids a)) a))
  = entries_of u a.
Proof. intros Hj. unfold entries_of. simpl. by apply filter_length_insert with entry. Qed.

Lemma docs_of_revised u' id' id n i bid j entry a s :
  bidDocs s !! i = Some bid ->
  docs_of u' id' (revised id n i bid j entry a s) = docs_of u' id' s.
Proof. intros Hi. unfold docs_of. simpl. by apply filter_length_insert with bid. Qed.

(** Counts after an insertion: one more for the bidding pair, and for it
    alone. *)
Lemma entries_of_inserted u user n d a :
  entries_of u (set_currentBid n
                  (set_bids (bids a ++ [mkBidEntry user (userName d) (profileImage d) n]) a))
  = (entries_of u a + (if decide (user = u) then 1 else 0))%nat.
Proof. unfold entries_of. simpl. by rewrite filter_length_snoc. Qed.

Lemma docs_of_inserted u' id' id user n d a s :
  docs_of u' id' (inserted id user n d a s)
  = (docs_of u' id' s + (if decide (user = u' /\ id = id') then 1 else 0))%nat.
Proof. unfold docs_of. simpl. by rewrite filter_length_snoc. Qed.

(** Every way a transaction of [placeBid] can end. *)
Inductive commit_outcome (id : AuctionId) (req : BidRequest) (s : Store)
  : Reply JsVal * Store -> Prop :=
| commit_missing :
    auctions s !! id = None ->
    commit_outcome id req s (Next (Forwarded not_found), s)
| commit_no_user a :
    auctions s !! id = Some a ->
    existingBid (bid_user req) id s = None
    \/ existingBidInAuction (bid_user req) a = None ->
    users s !! bid_user req = None ->
    commit_outcome id req s (Next (Forwarded user_not_found), s)
| commit_cast_error a :
    auctions s !! id = Some a ->
    stored_as (body_amount req) = None ->
    commit_outcome id req s (Next (Rewrapped CastError), s)
| commit_revised a i bid j entry n :
    auctions s !! id = Some a ->
    existingBid (bid_user req) id s = Some (i, bid) ->
    existingBidInAuction (bid_user req) a = Some (j, entry) ->
    stored_as (body_amount req) = Some n ->
    commit_outcome id req s
      (Json 201%N (body_amount req), revised id n i bid j entry a s)
| commit_inserted a d n :
    auctions s !! id = Some a ->
    existingBid (bid_user req) id s = None
    \/ existingBidInAuction (bid_user req) a = None ->
    users s !! bid_user req = Some d ->
    stored_as (body_amount req) = Some n ->
    commit_outcome id req s
      (Json 201%N (body_amount req), inserted id (bid_user req) n d a s).

Lemma placeBid_commit_outcome id req s :
  commit_outcome id req s (placeBid_commit id req s).
Proof.
  unfold placeBid_commit, withTransaction.
  destruct (auctions s !! id) as [a|] eqn:Ha.
  - destruct (existingBid (bid_user req) id s) as [[i bid]|] eqn:Hb.
    + destruct (existingBidInAuction (bid_user req) a) as [[j entry]|] eqn:He.
      * rewrite (placeBid_body_revise _ _ _ _ _ _ _ _ _ Ha Hb He).
        destruct (stored_as _) eqn:Hv; simpl; by econstructor.
      * rewrite (placeBid_body_insert _ _ _ _ _ Ha (or_intror He)).
        destruct (users s !! _) eqn:Hu; simpl; [|econstructor; eauto].
        destruct (stored_as _) eqn:Hv; simpl; econstructor; eauto.
    + rewrite (placeBid_body_insert _ _ _ _ _ Ha (or_introl Hb)).
      destruct (users s !! _) eqn:Hu; simpl; [|econstructor; eauto].
      destruct (stored_as _) eqn:Hv; simpl; econstructor; eauto.
  - rewrite (placeBid_body_missing _ _ _ _ Ha). by constructor.
Qed.

End Ledger.

(** ** A small store to run the handlers on *)

Module Sample.

Definition seller : User := mkUser "seller" None 0 0 0.
Definition ann : User := mkUser "ann" None 0 0 0.
Definition bob : User := mkUser "bob" (Some "bob.png") 0 0 0.

Definition vase : Listing :=
  mkListing (JStr "Vase") (JStr "A vase") (JStr "Art") (JStr "Used") "img1" "https://img/1".

(** Auction 7, created by user 1, open from 1000 to 2000, starting bid
    100, no bid yet. *)
Definition lot : Auction := mkAuction vase 100 0 1000 2000 [] None false 1%nat.

Definition people : gmap nat User := {[ 1%nat := seller; 2%nat := ann; 3%nat := bob ]}.

Definition fresh : Store := mkStore people {[ 7%nat := lot ]} [].

Definition bid_by (u : UserId) (v : JsVal) : BidRequest := mkBidRequest (ObjectId 7) u v.

(** Ann (user 2) has an embedded entry at 150 but no standalone document. *)
Definition embedded_only : Store :=
  mkStore people
          {[ 7%nat := set_currentBid 150 (set_bids [mkBidEntry 2 "ann" None 150] lot) ]}
          [].

(** Ann's bid of 150 stands, in both records. *)
Definition ann_leads : Store :=
  mkStore people
          {[ 7%nat := set_currentBid 150 (set_bids [mkBidEntry 2 "ann" None 150] lot) ]}
          [mkBid 150 2 "ann" None 7].


(** After the auction closed and was settled: Bob (user 3) won at 200.
    Ann (user 2) sells too and owes a commission of 30; the seller owes
    10.  The last standalone document belongs to another auction. *)
Definition settled : Store :=
  mkStore {[ 1%nat := mkUser "seller" None 0 0 10;
             2%nat := mkUser "ann" None 0 0 30;
             3%nat := mkUser "bob" (Some "bob.png") 200 1 0 ]}
          {[ 7%nat := mkAuction vase 100 200 1000 2000
                        [mkBidEntry 2 "ann" None 150;
                         mkBidEntry 3 "bob" (Some "bob.png") 200]
                        (Some 3%nat) true 1%nat ]}
          [mkBid 150 2 "ann" None 7; mkBid 200 3 "bob" (Some "bob.png") 7;
           mkBid 40 3 "bob" (Some "bob.png") 9].

Definition republish_by (u : UserId) (newStart newEnd : Z) : RepublishRequest :=
  mkRepublishRequest (ObjectId 7) u (Time newStart) (Time newEnd).

(** A complete request for a new auction, open from 3000 to 4000. *)
Definition listing_by (u : UserId) (files : ReqFiles) : NewAuctionRequest :=
  mkNewAuctionRequest files u (JStr "Lamp") (JStr "A lamp") (JStr "Home") (JStr "New")
                      (JNum 20) (Time 3000) (Time 4000).

End Sample.

(** ** [placeBid]: the price *)

Section PlaceBidPrice.
Import Txn Model Bidding BiddingFacts Ledger.

(** A request that passed the checks and committed carries an amount that
    converts to a number above the [currentBid] that the checks read. *)
Lemma placeBid_committed_amount req s0 s1 st body s2 :
  placeBid req s0 s1 = (Json st body, s2) ->
  exists id a0 a2 n,
    bid_params_id req = ObjectId id /\
    auctions s0 !! id = Some a0 /\
    auctions s2 !! id = Some a2 /\
    ToNumber (body_amount req) = Some n /\
    currentBid a0 < n /\ startingBid a0 <= n /\ currentBid a2 = n.
Proof.
  unfold placeBid. destruct (placeBid_checks req s0) as [e|id] eqn:Hc; [done|].
  apply placeBid_checks_inr in Hc as (Hp & a0 & Ha0 & Ht & Hle & Hlt).
  intros Hcommit. pose proof (placeBid_commit_outcome id req s1) as Hout.
  rewrite Hcommit in Hout.
  assert (forall n, stored_as (body_amount req) = Some n ->
                    ToNumber (body_amount req) = Some n /\
                    currentBid a0 < n /\ startingBid a0 <= n) as Hn.
  { intros n Hs. assert (ToNumber (body_amount req) = Some n) as Hnum.
    { by destruct (body_amount req). }
    unfold le_num, lt_num in *. rewrite Hnum in Hle, Hlt. split; [done|]. lia. }
  inversion Hout; subst.
  - exists id, a0, (set_currentBid n (set_bids (<[j := set_entryAmount n entry]> (bids a)) a)), n.
    destruct (Hn n) as (? & ? & ?); [done|].
    repeat split; try done. simpl. by rewrite lookup_insert_eq.
  - exists id, a0,
      (set_currentBid n
         (set_bids (bids a ++ [mkBidEntry (bid_user req) (userName d) (profileImage d) n]) a)), n.
    destruct (Hn n) as (? & ? & ?); [done|].
    repeat split; try done. simpl. by rewrite lookup_insert_eq.
Qed.

(** Served with no other writer in between, an accepted bid strictly
    raises [currentBid]. *)
Lemma placeBid_alone_raises req s st body s' :
  placeBid_alone req s = (Json st body, s') ->
  exists id a a',
    auctions s !! id = Some a /\ auctions s' !! id = Some a' /\
    currentBid a < currentBid a'.
Proof.
  intros (id & a0 & a2 & n & _ & H0 & H2 & _ & Hlt & _ & Hc)%placeBid_committed_amount.
  exists id, a0, a2. repeat split; try done. lia.
Qed.

(** C1 (the code departs from the claim): the only comparison of the
    amount with [currentBid] is made on the auction read before the
    transaction; the transaction fetches the auction again and writes
    [currentBid] without comparing.  Here Ann's request for 150 reads the
    auction at [currentBid] 0, Bob's bid of 200 commits, and then Ann's
    transaction runs: it commits 150 over 200, so the committed amount is
    not above the [currentBid] visible when the transaction starts, and
    [currentBid] goes down. *)
Theorem placeBid_commits_below_visible_currentBid :
  let after_bob := placeBid_alone (Sample.bid_by 3 (JNum 200)) Sample.fresh in
  let after_ann := placeBid (Sample.bid_by 2 (JNum 150)) Sample.fresh after_bob.2 in
  after_bob.1 = Json 201%N (JNum 200) /\
  currentBid <$> auctions after_bob.2 !! 7%nat = Some 200 /\
  after_ann.1 = Json 201%N (JNum 150) /\
  currentBid <$> auctions after_ann.2 !! 7%nat = Some 150.
Proof. vm_compute. repeat split; reflexivity. Qed.

End PlaceBidPrice.

(** ** [placeBid]: one bid per bidder *)

Section PlaceBidLedger.
Import Txn Model Bidding BiddingFacts Ledger.

(** The counts of a store that a transaction left as it was, or revised,
    or extended. *)
Lemma one_per_bidder_revised id n i bid j entry a s :
  auctions s !! id = Some a ->
  bidDocs s !! i = Some bid -> bids a !! j = Some entry ->
  one_per_bidder s -> one_per_bidder (revised id n i bid j entry a s).
Proof.
  intros Ha Hi Hj [He Hd]. split.
  - intros id' a' u. simpl. destruct (decide (id = id')) as [<-|Hne].
    + rewrite lookup_insert_eq. intros [= <-].
      rewrite entries_of_revised by done. by eapply He.
    + rewrite lookup_insert_ne by done. apply He.
  - intros u id'. rewrite docs_of_revised by done. apply Hd.
Qed.

Lemma one_per_bidder_inserted id user n d a s :
  auctions s !! id = Some a ->
  entries_of user a = 0%nat -> docs_of user id s = 0%nat ->
  one_per_bidder s -> one_per_bidder (inserted id user n d a s).
Proof.
  intros Ha He0 Hd0 [He Hd]. split.
  - intros id' a' u. simpl. destruct (decide (id = id')) as [<-|Hne].
    + rewrite lookup_insert_eq. intros [= <-].
      rewrite entries_of_inserted. specialize (He id a u Ha).
      destruct (decide (user = u)) as [<-|]; lia.
    + rewrite lookup_insert_ne by done. apply He.
  - intros u id'. rewrite docs_of_inserted. specialize (Hd u id').
    destruct (decide (user = u /\ id = id')) as [[<- <-]|]; lia.
Qed.

(** Whether a pair is in step is not disturbed by a transaction, for the
    bidding pair or any other. *)
Lemma in_step_revised u' id' id n i bid j entry a s :
  auctions s !! id = Some a ->
  bidDocs s !! i = Some bid -> bids a !! j = Some entry ->
  in_step u' id' s -> in_step u' id' (revised id n i bid j entry a s).
Proof.
  intros Ha Hi Hj Hs a'. rewrite docs_of_revised by done. simpl.
  destruct (decide (id = id')) as [<-|Hne].
  - rewrite lookup_insert_eq. intros [= <-].
    rewrite entries_of_revised by done. by apply Hs.
  - rewrite lookup_insert_ne by done. apply Hs.
Qed.

Lemma in_step_inserted u' id' id user n d a s :
  auctions s !! id = Some a ->
  in_step u' id' s -> in_step u' id' (inserted id user n d a s).
Proof.
  intros Ha Hs a'. rewrite docs_of_inserted. simpl.
  destruct (decide (id = id')) as [<-|Hne].
  - rewrite lookup_insert_eq. intros [= <-]. rewrite entries_of_inserted.
    specialize (Hs a Ha).
    destruct (decide (user = u')) as [<-|Hu].
    + rewrite decide_True by done. lia.
    + rewrite decide_False by tauto. lia.
  - rewrite lookup_insert_ne by done. intros Ha'. specialize (Hs a' Ha').
    rewrite decide_False by tauto. lia.
Qed.

(** C2 (as amended): on a store where the bidder's embedded entry and
    standalone document for this auction are both there or both missing,
    every call of [placeBid] keeps at most one embedded entry per bidder
    and at most one standalone document per (bidder, auction) pair, and
    keeps in step every pair that was.  A bid whose amount passes the checks
    (here for an amount that converts to an integer held exactly) does
    commit: when the bidder has both records, the call answers 201 and sets
    the amount of that entry and of that document where they stand, the two
    lists keeping their length and the bidder exactly one of each; when the
    bidder has neither and has a user record, the call answers 201 and the
    bidder has exactly one of each afterwards. *)
Theorem placeBid_keeps_one_per_bidder req s0 s1 id :
  bid_params_id req = ObjectId id ->
  one_per_bidder s1 ->
  in_step (bid_user req) id s1 ->
  one_per_bidder (placeBid req s0 s1).2 /\
  (forall u' id', in_step u' id' s1 -> in_step u' id' (placeBid req s0 s1).2) /\
  (forall a0 a n,
      auctions s0 !! id = Some a0 ->
      truthy (body_amount req) = true ->
      ToNumber (body_amount req) = Some n -> exact n ->
      currentBid a0 < n -> startingBid a0 <= n ->
      auctions s1 !! id = Some a ->
      (forall i bid j entry,
          existingBid (bid_user req) id s1 = Some (i, bid) ->
          existingBidInAuction (bid_user req) a = Some (j, entry) ->
          exists a2,
            placeBid req s0 s1
            = (Json 201%N (body_amount req),
               mkStore (users s1) (<[id := a2]> (auctions s1))
                       (<[i := set_amount n bid]> (bidDocs s1))) /\
            bids a2 = <[j := set_entryAmount n entry]> (bids a) /\
            currentBid a2 = n /\
            length (bids a2) = length (bids a) /\
            existingBidInAuction (bid_user req) a2 = Some (j, set_entryAmount n entry) /\
            existingBid (bid_user req) id (placeBid req s0 s1).2
            = Some (i, set_amount n bid) /\
            length (bidDocs (placeBid req s0 s1).2) = length (bidDocs s1) /\
            entries_of (bid_user req) a2 = 1%nat /\
            docs_of (bid_user req) id (placeBid req s0 s1).2 = 1%nat) /\
      (forall d,
          existingBid (bid_user req) id s1 = None ->
          users s1 !! bid_user req = Some d ->
          exists a2,
            placeBid req s0 s1
            = (Json 201%N (body_amount req),
               mkStore (users s1) (<[id := a2]> (auctions s1))
                       (bidDocs s1 ++ [mkBid n (bid_user req) (userName d)
                                             (profileImage d) id])) /\
            bids a2 = bids a ++ [mkBidEntry (bid_user req) (userName d) (profileImage d) n] /\
            currentBid a2 = n /\
            entries_of (bid_user req) a2 = 1%nat /\
            docs_of (bid_user req) id (placeBid req s0 s1).2 = 1%nat)).
Proof.
  intros Hp Hone Hstep.
  assert (one_per_bidder (placeBid req s0 s1).2 /\
          (forall u' id', in_step u' id' s1 -> in_step u' id' (placeBid req s0 s1).2))
    as Hsafe.
  { unfold placeBid.
    destruct (placeBid_checks req s0) as [e|id'] eqn:Hc; [done|].
    apply placeBid_checks_inr in Hc as (Hp' & _). rewrite Hp in Hp'. injection Hp' as <-.
    pose proof (placeBid_commit_outcome id req s1) as Hout.
    destruct (placeBid_commit id req s1) as [r s2]. simpl.
    inversion Hout as [Ha|a Ha Hnone Hu|a Ha Hv|a i bid j entry n Ha Hb He Hv
                       |a d n Ha Hnone Hu Hv]; subst; try done.
    - pose proof Hb as (Hi & _ & _)%list_find_Some.
      pose proof He as (Hj & _ & _)%list_find_Some.
      split; [by apply one_per_bidder_revised|].
      intros u' id' Hs. by apply in_step_revised.
    - split; [|intros u' id' Hs; by apply in_step_inserted].
      specialize (Hstep a Ha). destruct Hnone as [Hn|Hn].
      + apply existingBid_None in Hn. apply one_per_bidder_inserted; try done. by apply Hstep.
      + apply existingBidInAuction_None in Hn.
        apply one_per_bidder_inserted; try done. by apply Hstep. }
  destruct Hsafe as [Hsafe1 Hsafe2]. split; [done|]. split; [done|].
  intros a0 a n Ha0 Ht Hn _ Hlt Hge Ha.
  assert (placeBid_checks req s0 = inr id) as Hc.
  { apply placeBid_checks_inr. split; [done|]. exists a0.
    unfold le_num, lt_num. rewrite Hn. repeat split; try done.
    - by apply Z.leb_gt.
    - by apply Z.ltb_ge. }
  pose proof (stored_as_truthy _ _ Ht Hn) as Hv.
  split.
  - intros i bid j entry Hb He.
    assert (placeBid req s0 s1
            = (Json 201%N (body_amount req), revised id n i bid j entry a s1)) as Hrun.
    { unfold placeBid. rewrite Hc. unfold placeBid_commit, Txn.withTransaction.
      by rewrite (placeBid_body_revise _ _ _ _ _ _ _ _ _ Ha Hb He), Hv. }
    rewrite Hrun. cbn [snd].
    pose proof Hb as (Hi & [Hb1 Hb2] & _)%list_find_Some.
    pose proof He as (Hj & Hentry & _)%list_find_Some.
    exists (set_currentBid n (set_bids (<[j := set_entryAmount n entry]> (bids a)) a)).
    split; [reflexivity|]. split; [done|]. split; [done|].
    split; [simpl; by rewrite length_insert|].
    split.
    { unfold existingBidInAuction in *. simpl.
      eapply list_find_insert_kept; [exact He|done]. }
    split.
    { unfold existingBid in *. simpl.
      eapply list_find_insert_kept; [exact Hb|done]. }
    split; [simpl; by rewrite length_insert|].
    rewrite entries_of_revised by done. rewrite docs_of_revised by done.
    destruct Hone as [Hone1 Hone2].
    specialize (Hone1 id a (bid_user req) Ha). specialize (Hone2 (bid_user req) id).
    assert (entries_of (bid_user req) a <> 0%nat) as Hne1.
    { intros Hz. apply existingBidInAuction_None in Hz. congruence. }
    assert (docs_of (bid_user req) id s1 <> 0%nat) as Hne2.
    { intros Hz. apply existingBid_None in Hz. congruence. }
    lia.
  - intros d Hnone Hu.
    assert (placeBid req s0 s1
            = (Json 201%N (body_amount req), inserted id (bid_user req) n d a s1)) as Hrun.
    { unfold placeBid. rewrite Hc. unfold placeBid_commit, Txn.withTransaction.
      by rewrite (placeBid_body_insert _ _ _ _ _ Ha (or_introl Hnone)), Hu, Hv. }
    rewrite Hrun. cbn [snd].
    exists (set_currentBid n
              (set_bids (bids a ++ [mkBidEntry (bid_user req) (userName d)
                                               (profileImage d) n]) a)).
    split; [reflexivity|]. split; [done|]. split; [done|].
    rewrite entries_of_inserted, docs_of_inserted.
    rewrite !decide_True by done.
    apply existingBid_None in Hnone. pose proof (proj2 (Hstep a Ha) Hnone). lia.
Qed.

(** A ledger in which every pair is in step and no pair has two records. *)
Definition ledger_ok (s : Store) : Prop :=
  one_per_bidder s /\ forall u id, in_step u id s.

Lemma ledger_ok_no_bids s :
  bidDocs s = [] ->
  (forall id a, auctions s !! id = Some a -> bids a = []) ->
  ledger_ok s.
Proof.
  intros Hd He. split; [split|].
  - intros id a u Ha. unfold entries_of. rewrite (He id a Ha). simpl. lia.
  - intros u id. unfold docs_of. rewrite Hd. simpl. lia.
  - intros u id a Ha. unfold entries_of, docs_of. by rewrite (He id a Ha), Hd.
Qed.

Lemma placeBid_keeps_ledger req s0 s1 :
  ledger_ok s1 -> ledger_ok (placeBid req s0 s1).2.
Proof.
  intros [Hone Hstep]. unfold placeBid.
  destruct (placeBid_checks req s0) as [e|id] eqn:Hc; [done|].
  pose proof (placeBid_commit_outcome id req s1) as Hout.
  destruct (placeBid_commit id req s1) as [r s2]. simpl.
  inversion Hout as [Ha|a Ha Hnone Hu|a Ha Hv|a i bid j entry n Ha Hb He Hv
                     |a d n Ha Hnone Hu Hv]; subst; try done.
  - pose proof Hb as (Hi & _ & _)%list_find_Some.
    pose proof He as (Hj & _ & _)%list_find_Some.
    split; [by apply one_per_bidder_revised|].
    intros u id'. by apply in_step_revised.
  - split; [|intros u id'; by apply in_step_inserted].
    specialize (Hstep (bid_user req) id a Ha).
    destruct Hnone as [Hn|Hn].
    + apply existingBid_None in Hn. apply one_per_bidder_inserted; try done. by apply Hstep.
    + apply existingBidInAuction_None in Hn.
      apply one_per_bidder_inserted; try done. by apply Hstep.
Qed.

(** Requests served one after the other. *)
Fixpoint placeBid_all (reqs : list BidRequest) (s : Store) : Store :=
  match reqs with
  | [] => s
  | req :: reqs => placeBid_all reqs (placeBid_alone req s).2
  end.

(** From a store without bids, no sequence of calls gives a bidder two
    entries or two documents for one auction. *)
Lemma placeBid_all_one_per_bidder reqs s :
  bidDocs s = [] ->
  (forall id a, auctions s !! id = Some a -> bids a = []) ->
  one_per_bidder (placeBid_all reqs s).
Proof.
  intros Hd He. assert (ledger_ok s) as Hok by by apply ledger_ok_no_bids.
  clear Hd He. revert s Hok.
  induction reqs as [|req reqs IH]; intros s Hok; simpl; [by destruct Hok|].
  apply IH. by apply placeBid_keeps_ledger.
Qed.

End PlaceBidLedger.

Section PlaceBidMixed.
Import Txn Model Bidding BiddingFacts Ledger.

(** C2 (where the claim as stated fails): the store [embedded_only] has
    at most one entry and one document per bidder, and after Ann's bid of
    200 the auction holds two embedded entries for her. *)
Lemma placeBid_can_duplicate_an_entry :
  one_per_bidder Sample.embedded_only /\
  (placeBid_alone (Sample.bid_by 2 (JNum 200)) Sample.embedded_only).1
  = Json 201%N (JNum 200) /\
  ~ one_per_bidder (placeBid_alone (Sample.bid_by 2 (JNum 200)) Sample.embedded_only).2.
Proof.
  split; [|split].
  - split.
    + intros id a u H. unfold Sample.embedded_only in H. cbn [auctions] in H.
      apply lookup_singleton_Some in H as [<- <-].
      unfold entries_of. etrans; [apply length_filter|]. simpl. lia.
    + intros u id. unfold docs_of. simpl. lia.
  - reflexivity.
  - intros [He _].
    specialize (He 7%nat
                   (set_currentBid 200
                      (set_bids [mkBidEntry 2 "ann" None 150; mkBidEntry 2 "ann" None 200]
                                Sample.lot))
                   2%nat eq_refl).
    vm_compute in He. lia.
Qed.






Lemma placeBid_keeps_one_per_bidder_witness :
  exists a2,
    placeBid (Sample.bid_by 2 (JNum 200)) Sample.ann_leads Sample.ann_leads
    = (Json 201%N (JNum 200),
       mkStore (users Sample.ann_leads) (<[7%nat := a2]> (auctions Sample.ann_leads))
               (<[0%nat := set_amount 200 (mkBid 150 2 "ann" None 7)]>
                  (bidDocs Sample.ann_leads))) /\
    bids a2 = [mkBidEntry 2 "ann" None 200] /\
    currentBid a2 = 200 /\
    entries_of 2 a2 = 1%nat /\
    docs_of 2 7 (placeBid (Sample.bid_by 2 (JNum 200)) Sample.ann_leads
                          Sample.ann_leads).2 = 1%nat.
Proof.
  assert (one_per_bidder Sample.ann_leads) as Hone.
  { split.
    - intros id a u H. unfold Sample.ann_leads in H. cbn [auctions] in H.
      apply lookup_singleton_Some in H as [<- <-].
      unfold entries_of. etrans; [apply length_filter|]. simpl. lia.
    - intros u id. unfold docs_of. etrans; [apply length_filter|]. simpl. lia. }
  assert (in_step 2 7 Sample.ann_leads) as Hstep.
  { intros a H. unfold Sample.ann_leads in H. cbn [auctions] in H.
    apply lookup_singleton_Some in H as [_ <-].
    split; intros Hx; vm_compute in Hx; discriminate. }
  destruct (proj1 (proj2 (proj2 (placeBid_keeps_one_per_bidder
                                   (Sample.bid_by 2 (JNum 200))
                                   Sample.ann_leads Sample.ann_leads 7%nat
                                   eq_refl Hone Hstep))
                    (set_currentBid 150 (set_bids [mkBidEntry 2 "ann" None 150] Sample.lot))
                    (set_currentBid 150 (set_bids [mkBidEntry 2 "ann" None 150] Sample.lot))
                    200 eq_refl eq_refl eq_refl (exact_small 200 ltac:(lia))
                    ltac:(simpl; lia) ltac:(simpl; lia) eq_refl)
             0%nat (mkBid 150 2 "ann" None 7) 0%nat (mkBidEntry 2 "ann" None 150)
             eq_refl eq_refl)
    as (a2 & Hrun & Hbids & Hprice & _ & _ & _ & _ & Hentries & Hdocs).
  exists a2. split; [exact Hrun|]. split; [exact Hbids|]. split; [exact Hprice|].
  split; [exact Hentries | exact Hdocs].
Defined.

End PlaceBidMixed.

(** ** [placeBid]: the checks before the transaction *)

Section PlaceBidChecks.
Import Txn Model Bidding BiddingFacts Ledger.

(** The values that [!amount] turns away. *)
Definition falsy (v : JsVal) : Prop :=
  v = JUndefined \/ v = JNull \/ v = JBool false \/ v = JNum 0 \/ v = JStr "".

Lemma truthy_false v : truthy v = false <-> falsy v.
Proof.
  unfold falsy. split.
  - destruct v as [| |[]|n|s]; simpl; try done; auto.
    + intros H%negb_false_iff%Z.eqb_eq. subst. auto.
    + intros H%negb_false_iff%String.eqb_eq. subst. auto 6.
  - intros [-> | [-> | [-> | [-> | ->]]]]; done.
Qed.

(** What the transaction can answer. *)
Lemma placeBid_commit_reply id req s :
  (placeBid_commit id req s).1 = Next (Forwarded not_found) \/
  (placeBid_commit id req s).1 = Next (Forwarded user_not_found) \/
  (placeBid_commit id req s).1 = Next (Rewrapped CastError) \/
  (placeBid_commit id req s).1 = Json 201%N (body_amount req).
Proof.
  pose proof (placeBid_commit_outcome id req s) as Hout.
  destruct (placeBid_commit id req s) as [r s']. inversion Hout; subst; simpl; auto.
Qed.

(** A request that the checks turn away is answered with their error and
    writes nothing. *)
Lemma placeBid_turned_away req s0 s1 e :
  placeBid_checks req s0 = inl e -> placeBid req s0 s1 = (Next e, s1).
Proof. intros H. unfold placeBid. by rewrite H. Qed.

(** C4 (as amended): [placeBid] answers "Please place your bid." exactly
    when the auction exists and the submitted amount is falsy, that is
    absent, [null], [false], the number 0 or the empty string; this is
    decided right after the auction is found, before the amount is compared
    with [currentBid] or [startingBid], and the call then writes nothing.
    The check does not look at the type of the amount. *)
Theorem placeBid_no_amount_iff req s0 s1 :
  ((placeBid req s0 s1).1 = Next (Forwarded no_amount) <->
   exists id a, bid_params_id req = ObjectId id /\
                auctions s0 !! id = Some a /\
                falsy (body_amount req)) /\
  ((placeBid req s0 s1).1 = Next (Forwarded no_amount) -> (placeBid req s0 s1).2 = s1).
Proof.
  split.
  - split.
    + unfold placeBid. destruct (placeBid_checks req s0) as [e|id] eqn:Hc.
      * simpl. unfold placeBid_checks in Hc.
        destruct (bid_params_id req) as [|id]; [by simplify_eq/=|].
        destruct (auctions s0 !! id) as [a|] eqn:Ha; [|by simplify_eq/=].
        destruct (truthy (body_amount req)) eqn:Ht; simpl in Hc.
        -- destruct (le_num _ _); [by simplify_eq/=|].
           destruct (lt_num _ _); by simplify_eq/=.
        -- intros _. exists id, a. by rewrite <- truthy_false.
      * destruct (placeBid_commit_reply id req s1) as [H|[H|[H|H]]]; by rewrite H.
    + intros (id & a & Hp & Ha & Hf%truthy_false).
      rewrite (placeBid_turned_away _ _ _ (Forwarded no_amount)); [done|].
      unfold placeBid_checks. by rewrite Hp, Ha, Hf.
  - unfold placeBid. destruct (placeBid_checks req s0) as [e|id]; [done|].
    destruct (placeBid_commit_reply id req s1) as [H|[H|[H|H]]]; by rewrite H.
Qed.

Lemma placeBid_no_amount_iff_witness :
  (placeBid (Sample.bid_by 2 JUndefined) Sample.fresh Sample.fresh).1
  = Next (Forwarded no_amount) /\
  (placeBid (Sample.bid_by 2 JUndefined) Sample.fresh Sample.fresh).2 = Sample.fresh.
Proof.
  assert ((placeBid (Sample.bid_by 2 JUndefined) Sample.fresh Sample.fresh).1
          = Next (Forwarded no_amount)) as Hreply.
  { refine (proj2 (proj1 (placeBid_no_amount_iff (Sample.bid_by 2 JUndefined)
                            Sample.fresh Sample.fresh)) _).
    exists 7%nat, Sample.lot. split; [reflexivity|]. split; [reflexivity|]. by left. }
  split; [exact Hreply|].
  exact (proj2 (placeBid_no_amount_iff (Sample.bid_by 2 JUndefined)
                  Sample.fresh Sample.fresh) Hreply).
Defined.

(** C4 (where the claim as stated fails): the amount 0 is present and
    numeric and is turned away with "Please place your bid."; the amount
    "abc" is no number and is not turned away by that check: it reaches
    the transaction, whose [save] throws. *)
Lemma placeBid_amount_check_is_truthiness :
  placeBid_alone (Sample.bid_by 2 (JNum 0)) Sample.fresh
  = (Next (Forwarded no_amount), Sample.fresh) /\
  placeBid_alone (Sample.bid_by 2 (JStr "abc")) Sample.fresh
  = (Next (Rewrapped CastError), Sample.fresh).
Proof. split; reflexivity. Qed.

(** C5 (as amended): a submitted amount that is not above the
    [currentBid] read before the transaction always fails and changes
    nothing in the store; the error is "Bid amount must be greater than the
    current bid." unless the amount is falsy (the number 0), in which case
    it is "Please place your bid.". *)
Theorem placeBid_not_above_currentBid req s0 s1 id a n :
  bid_params_id req = ObjectId id ->
  auctions s0 !! id = Some a ->
  ToNumber (body_amount req) = Some n ->
  n <= currentBid a ->
  placeBid req s0 s1
  = (Next (Forwarded (if truthy (body_amount req) then bid_too_low else no_amount)), s1).
Proof.
  intros Hp Ha Hn Hle. apply placeBid_turned_away.
  unfold placeBid_checks. rewrite Hp, Ha. simpl.
  destruct (truthy (body_amount req)); simpl; [|done].
  unfold le_num. rewrite Hn. by rewrite (Zle_imp_le_bool _ _ Hle).
Qed.

Lemma placeBid_not_above_currentBid_witness :
  placeBid (Sample.bid_by 3 (JNum 120)) Sample.embedded_only Sample.embedded_only
  = (Next (Forwarded bid_too_low), Sample.embedded_only).
Proof.
  refine (placeBid_not_above_currentBid (Sample.bid_by 3 (JNum 120))
            Sample.embedded_only Sample.embedded_only 7%nat
            (set_currentBid 150 (set_bids [mkBidEntry 2 "ann" None 150] Sample.lot))
            120 _ _ _ _).
  - reflexivity.
  - reflexivity.
  - reflexivity.
  - simpl. lia.
Defined.

(** C5 (where the claim as stated fails): on the fresh auction
    [currentBid] is 0; the amount 0 is not above it, and the answer is
    "Please place your bid.", not a rejection of a bid that is too low. *)
Lemma placeBid_zero_amount_not_rejected :
  auctions Sample.fresh !! 7%nat = Some Sample.lot /\
  0 <= currentBid Sample.lot /\
  placeBid_alone (Sample.bid_by 2 (JNum 0)) Sample.fresh
  = (Next (Forwarded no_amount), Sample.fresh) /\
  no_amount <> bid_too_low /\ no_amount <> below_starting_bid.
Proof. repeat split; done. Qed.




End PlaceBidChecks.

(** ** What [republishItem] computes *)

Module RepublishFacts.
Import Txn Model Republish.

(** Step 2 on one user record. *)
Definition rolled_back (c : Z) (u : User) : User :=
  set_auctionsWon (auctionsWon (set_moneySpent (moneySpent u - c) u) - 1)
                  (set_moneySpent (moneySpent u - c) u).

(** The users after step 2; [None] when the highest bidder is set and
    missing. *)
Definition rollback (a : Auction) (m : gmap nat User) : option (gmap nat User) :=
  match highestBidder a with
  | None => Some m
  | Some h => (fun hb => <[h := rolled_back (currentBid a) hb]> m) <$> m !! h
  end.

(** The store that a republish commits. *)
Definition republished (id : AuctionId) (user : UserId) (newStart newEnd : Z)
           (a : Auction) (users1 : gmap nat User) (creator : User) (s : Store) : Store :=
  mkStore (<[user := set_unpaidCommission 0 creator]> users1)
          (<[id := reset_auction newStart newEnd a]> (auctions s))
          (filter (fun b => auctionItem b <> id) (bidDocs s)).

(** Every way [republishItem] can end: an error with the store as it
    was, or the commit under all the conditions that the handler tests. *)
Inductive republish_outcome (req : RepublishRequest) (now1 now2 : Z) (s : Store)
  : Reply (option Auction) * Store -> Prop :=
| republish_refused e :
    republish_outcome req now1 now2 s (Next e, s)
| republish_done id a newStart newEnd users1 creator :
    rep_params_id req = ObjectId id ->
    rep_startTime req = Time newStart ->
    rep_endTime req = Time newEnd ->
    now1 <= newStart ->
    newStart < newEnd ->
    auctions s !! id = Some a ->
    endTime a <= now2 ->
    rollback a (users s) = Some users1 ->
    users1 !! rep_user req = Some creator ->
    republish_outcome req now1 now2 s
      (Json 200%N (Some (reset_auction newStart newEnd a)),
       republished id (rep_user req) newStart newEnd a users1 creator s).

(** An Invalid Date never gets committed. *)
Lemma republish_body_bad_date id user newStart newEnd now s :
  newStart = None \/ newEnd = None ->
  exists e, republish_body id user newStart newEnd now s = inl e.
Proof.
  intros Hbad. unfold republish_body, bind, Auction_findById, User_findById, gets.
  destruct (auctions s !! id) as [a|]; [|by eexists].
  destruct (now <? endTime a); [by eexists|].
  destruct (highestBidder a) as [h|]; simpl.
  - destruct (users s !! h); simpl; [|by eexists].
    destruct Hbad as [-> | ->]; simpl; [by eexists|].
    destruct newStart; simpl; by eexists.
  - destruct Hbad as [-> | ->]; simpl; [by eexists|].
    destruct newStart; simpl; by eexists.
Qed.

Lemma republishItem_outcome req now1 now2 s :
  republish_outcome req now1 now2 s (republishItem req now1 now2 s).
Proof.
  unfold republishItem.
  destruct (rep_params_id req) as [|id] eqn:Hp; [constructor|].
  destruct (rep_startTime req) as [| |st] eqn:Hst;
    destruct (rep_endTime req) as [| |en] eqn:Hen; simpl; try constructor.
  - destruct (republish_body_bad_date id (rep_user req) None None now2 s) as [e He];
      [by left|].
    unfold withTransaction. rewrite He. constructor.
  - destruct (republish_body_bad_date id (rep_user req) None (Some en) now2 s) as [e He];
      [by left|].
    unfold withTransaction. rewrite He. constructor.
  - destruct (st <? now1); [constructor|].
    destruct (republish_body_bad_date id (rep_user req) (Some st) None now2 s) as [e He];
      [by right|].
    unfold withTransaction. rewrite He. constructor.
  - destruct (st <? now1) eqn:Hnow; [constructor|].
    destruct (en <=? st) eqn:Hwin; [constructor|].
    apply Z.ltb_ge in Hnow. apply Z.leb_gt in Hwin.
    unfold withTransaction, republish_body, bind, Auction_findById, gets.
    destruct (auctions s !! id) as [a|] eqn:Ha; [|constructor].
    destruct (now2 <? endTime a) eqn:Hend; [constructor|].
    apply Z.ltb_ge in Hend.
    unfold castDate, Auction_save, Bid_deleteMany, User_save, modify, ret.
    destruct (highestBidder a) as [h|] eqn:Hh; simpl.
    + unfold User_findById, gets. destruct (users s !! h) as [hb|] eqn:Hhb; [|constructor].
      simpl.
      destruct (<[h := rolled_back (currentBid a) hb]> (users s) !! rep_user req)
        as [c|] eqn:Hc.
      * change (set_auctionsWon (auctionsWon hb - 1)
                  (set_moneySpent (moneySpent hb - currentBid a) hb))
          with (rolled_back (currentBid a) hb).
        rewrite Hc. simpl. rewrite lookup_insert_eq.
        eapply (republish_done _ _ _ _ id a st en
                  (<[h := rolled_back (currentBid a) hb]> (users s)) c); eauto.
        unfold rollback. by rewrite Hh, Hhb.
      * change (set_auctionsWon (auctionsWon hb - 1)
                  (set_moneySpent (moneySpent hb - currentBid a) hb))
          with (rolled_back (currentBid a) hb).
        rewrite Hc. constructor.
    + unfold User_findById, gets.
      destruct (users s !! rep_user req) as [c|] eqn:Hc; [|constructor].
      simpl. rewrite lookup_insert_eq.
      eapply (republish_done _ _ _ _ id a st en (users s) c); eauto.
      unfold rollback. by rewrite Hh.
Qed.

End RepublishFacts.

(** ** [republishItem] *)

Section RepublishClaims.
Import Txn Model Republish RepublishFacts.

(** The auction that a request names, if there is one. *)
Definition target (req : RepublishRequest) (s : Store) : option Auction :=
  match rep_params_id req with
  | ObjectId id => auctions s !! id
  | Malformed => None
  end.

(** The four preconditions of a republish: [now1] is the clock when the
    new window is checked, [now2] the clock inside the transaction. *)
Definition preconditions (req : RepublishRequest) (now1 now2 : Z) (s : Store) : Prop :=
  exists a newStart newEnd,
    target req s = Some a /\
    rep_startTime req = Time newStart /\ rep_endTime req = Time newEnd /\
    now1 <= newStart /\ newStart < newEnd /\ endTime a <= now2.


Lemma republishItem_committed req now1 now2 s st body s' :
  republishItem req now1 now2 s = (Json st body, s') ->
  exists id a newStart newEnd users1 creator,
    rep_params_id req = ObjectId id /\
    rep_startTime req = Time newStart /\ rep_endTime req = Time newEnd /\
    now1 <= newStart /\ newStart < newEnd /\
    auctions s !! id = Some a /\ endTime a <= now2 /\
    rollback a (users s) = Some users1 /\
    users1 !! rep_user req = Some creator /\
    body = Some (reset_auction newStart newEnd a) /\
    s' = republished id (rep_user req) newStart newEnd a users1 creator s.
Proof.
  intros Heq. pose proof (republishItem_outcome req now1 now2 s) as Hout.
  rewrite Heq in Hout. inversion Hout; subst.
  exists id, a, newStart, newEnd, users1, creator. repeat split; done.
Qed.




(** A republish that goes through leaves the requesting user with no
    unpaid commission. *)
Lemma republishItem_resets_requester req now1 now2 s st body s' :
  republishItem req now1 now2 s = (Json st body, s') ->
  unpaidCommission <$> users s' !! rep_user req = Some 0.
Proof.
  intros (id & a & newStart & newEnd & users1 & creator & _ & _ & _ & _ & _
          & _ & _ & _ & _ & _ & ->)%republishItem_committed.
  simpl. by rewrite lookup_insert_eq.
Qed.

(** C7 (the code departs from the claim): step 5 is commented "Reset
    creator's unpaidCommission" and names its variable [creator], but it
    fetches [req.user._id], and nothing in the handler compares the
    requesting user with [createdBy].  Auction 7 was created by user 1, who
    owes 10; user 2, who owes 30, republishes it: the call goes through,
    user 1 still owes 10 and it is user 2 whose commission is set to 0. *)
Theorem republishItem_resets_requester_not_creator :
  let out := republishItem (Sample.republish_by 2 6000 7000) 5000 5001 Sample.settled in
  createdBy <$> auctions Sample.settled !! 7%nat = Some 1%nat /\
  out.1 = Json 200%N
            (Some (mkAuction Sample.vase 100 0 6000 7000 [] None false 1%nat)) /\
  unpaidCommission <$> users out.2 !! 1%nat = Some 10 /\
  unpaidCommission <$> users out.2 !! 2%nat = Some 0.
Proof. vm_compute. repeat split; reflexivity. Qed.

(** C8: [republishItem] answers with an error and leaves the store as it
    was whenever the auction does not exist, the new start is before the
    clock, the new start is not before the new end, or the auction's
    [endTime] is after the clock; and it answers with success, or changes
    the store, only when the auction exists, the new start is not before
    the clock, the new start is before the new end and the auction's
    [endTime] is not after the clock. *)
Theorem republishItem_preconditions req now1 now2 s :
  (target req s = None
   \/ (exists t, rep_startTime req = Time t /\ t < now1)
   \/ (exists t e, rep_startTime req = Time t /\ rep_endTime req = Time e /\ e <= t)
   \/ (exists a, target req s = Some a /\ now2 < endTime a) ->
   exists e, republishItem req now1 now2 s = (Next e, s)) /\
  (forall st body s', republishItem req now1 now2 s = (Json st body, s') ->
                      preconditions req now1 now2 s) /\
  ((republishItem req now1 now2 s).2 <> s -> preconditions req now1 now2 s).
Proof.
  pose proof (republishItem_outcome req now1 now2 s) as Hout.
  destruct (republishItem req now1 now2 s) as [r s'].
  inversion Hout as [e|id a newStart newEnd users1 creator Hp Hst Hen Hnow Hwin Ha Hend];
    subst.
  - split; [by eexists|]. split; [intros; discriminate|]. simpl. done.
  - assert (preconditions req now1 now2 s) as Hpre.
    { exists a, newStart, newEnd. unfold target. rewrite Hp. repeat split; done. }
    split; [|by split].
    unfold target. rewrite Hp, Ha, Hst, Hen.
    intros [Hnone|[(t & [= <-] & Hlt)|[(t & e & [= <-] & [= <-] & Hle)
                                      |(a' & [= <-] & Hlive)]]];
      [done|lia|lia|lia].
Qed.

Lemma republishItem_preconditions_witness :
  (exists e, republishItem (Sample.republish_by 1 6000 7000) 1500 1501 Sample.settled
             = (Next e, Sample.settled)) /\
  preconditions (Sample.republish_by 1 6000 7000) 5000 5001 Sample.settled.
Proof.
  split.
  - refine (proj1 (republishItem_preconditions
                     (Sample.republish_by 1 6000 7000) 1500 1501 Sample.settled) _).
    right. right. right. eexists. split; [reflexivity|]. simpl. lia.
  - refine (proj1 (proj2 (republishItem_preconditions
                            (Sample.republish_by 1 6000 7000) 5000 5001 Sample.settled))
                  200%N _ _ _).
    reflexivity.
Defined.

End RepublishClaims.

(** ** [addNewAuctionItem] *)

Section ListingClaims.
Import Txn Model Listings.

(** The user owns an auction whose [endTime] is after [now]. *)
Definition owns_active (u : UserId) (now : Z) (s : Store) : Prop :=
  exists id a, auctions s !! id = Some a /\ createdBy a = u /\ now < endTime a.

Lemma active_auctions_of_nonempty u now s :
  (0 < length (active_auctions_of u now s))%nat <-> owns_active u now s.
Proof.
  unfold active_auctions_of, owns_active. split.
  - intros Hlen.
    destruct (map_to_list _) as [|[id a] l] eqn:Hl; [simpl in Hlen; lia|].
    assert ((id, a) ∈ map_to_list
              (filter (fun p : nat * Auction => createdBy p.2 = u /\ now < endTime p.2)
                      (auctions s))) as Hin.
    { rewrite Hl. left. }
    apply elem_of_map_to_list, map_lookup_filter_Some in Hin as [Ha [Hc He]].
    by exists id, a.
  - intros (id & a & Ha & Hc & He).
    assert ((id, a) ∈ map_to_list
              (filter (fun p : nat * Auction => createdBy p.2 = u /\ now < endTime p.2)
                      (auctions s))) as Hin.
    { apply elem_of_map_to_list, map_lookup_filter_Some. done. }
    destruct (map_to_list _); [by apply elem_of_nil in Hin | simpl; lia].
Qed.

(** The creation only ever throws exceptions of the store layer. *)
Lemma Auction_create_throws req public_id secure_url newId s e :
  Auction_create req public_id secure_url newId s = inl e -> exists c, e = Thrown c.
Proof.
  unfold Auction_create, bind, castNumber, castDate, gets, Auction_save, modify, ret, throw.
  destruct (new_startingBid req) as [| |b|n|str]; simpl;
    try (intros [= <-]; by eexists).
  all: try (destruct (StringToNumber str); simpl; [|intros [= <-]; by eexists]).
  all: destruct (storedDate (new_startTime req)); simpl; [|intros [= <-]; by eexists];
    destruct (storedDate (new_endTime req)); simpl; [|intros [= <-]; by eexists];
    destruct (auctions s !! newId); simpl; [intros [= <-]; by eexists | done].
Qed.

Lemma Auction_create_done req public_id secure_url newId s a s' :
  Auction_create req public_id secure_url newId s = inr (a, s') ->
  auctions s !! newId = None /\ createdBy a = new_user req /\
  s' = set_auctions (<[newId := a]> (auctions s)) s.
Proof.
  unfold Auction_create, bind, castNumber, castDate, gets, Auction_save, modify, ret, throw.
  destruct (new_startingBid req) as [| |b|n|str]; simpl; try done.
  all: try (destruct (StringToNumber str); simpl; [|done]).
  all: destruct (storedDate (new_startTime req)); simpl; [|done];
    destruct (storedDate (new_endTime req)); simpl; [|done];
    destruct (auctions s !! newId) eqn:Hfree; simpl; [done|];
    intros [= <- <-]; done.
Qed.

(** C10 (as amended): for a request that passes the checks made before
    (an image of an allowed format, every field given, a start that is not
    in the past and is before the end), [addNewAuctionItem] fails with "You
    already have one active auction." and writes nothing whenever the
    requesting user owns an auction whose [endTime] is after the clock, in
    the store that the query reads; it gives that error in no other case;
    and it creates the auction only when the user owned no such auction. *)
Theorem addNewAuctionItem_one_active req now1 now2 up newId s0 s1 :
  (addNewAuctionItem_validate req now1 = None ->
   owns_active (new_user req) now2 s0 ->
   addNewAuctionItem req now1 now2 up newId s0 s1 = (Next (Forwarded already_active), s1)) /\
  ((addNewAuctionItem req now1 now2 up newId s0 s1).1 = Next (Forwarded already_active) ->
   addNewAuctionItem_validate req now1 = None /\ owns_active (new_user req) now2 s0) /\
  (forall st a s',
      addNewAuctionItem req now1 now2 up newId s0 s1 = (Json st a, s') ->
      ~ owns_active (new_user req) now2 s0 /\
      auctions s1 !! newId = None /\ createdBy a = new_user req /\
      s' = set_auctions (<[newId := a]> (auctions s1)) s1) /\
  ((addNewAuctionItem req now1 now2 up newId s0 s1).2 <> s1 ->
   ~ owns_active (new_user req) now2 s0).
Proof.
  unfold addNewAuctionItem, addNewAuctionItem_checks.
  destruct (addNewAuctionItem_validate req now1) as [e|] eqn:Hval.
  { split; [done|]. split; [|split; [done|simpl; done]].
    simpl. intros [= ->]. unfold addNewAuctionItem_validate in Hval.
    destruct (new_files req); [done|done|].
    repeat (match type of Hval with (if ?c then _ else _) = _ => destruct c end; [done|]).
    done. }
  destruct (bool_decide (0 < length (active_auctions_of (new_user req) now2 s0))%nat)
    eqn:Hact.
  { apply bool_decide_eq_true, active_auctions_of_nonempty in Hact.
    split; [done|]. split; [done|]. split; [done|]. simpl. done. }
  apply bool_decide_eq_false in Hact. rewrite active_auctions_of_nonempty in Hact.
  split; [done|].
  unfold addNewAuctionItem_create.
  destruct up as [| | |public_id secure_url]; simpl.
  - split; [done|]. split; done.
  - split; [done|]. split; done.
  - split; [done|]. split; done.
  - destruct (Auction_create req public_id secure_url newId s1) as [e|[a s']] eqn:Hcr.
    + apply Auction_create_throws in Hcr as [c ->]. simpl.
      split; [done|]. split; done.
    + apply Auction_create_done in Hcr as (Hfree & Hby & ->). simpl.
      split; [done|]. split; [|done].
      intros st a' s' [= _ <- <-]. done.
Qed.

(** C10 (where the claim as stated fails): user 1 owns auction 7, which
    ends at 2000, and at 1500 asks for a new auction without any file: the
    answer is "Auction item image required.", not the error on active
    auctions. *)
Lemma addNewAuctionItem_other_error_first :
  owns_active 1 1500 Sample.fresh /\
  addNewAuctionItem (Sample.listing_by 1 NoFiles) 1500 1501
                    (Uploaded "img2" "https://img/2") 8 Sample.fresh Sample.fresh
  = (Next (Forwarded image_required), Sample.fresh) /\
  image_required <> already_active.
Proof.
  split; [|split; done].
  exists 7%nat, Sample.lot. split; [reflexivity|]. split; [reflexivity|]. simpl. lia.
Qed.

Lemma addNewAuctionItem_one_active_witness :
  addNewAuctionItem (Sample.listing_by 1 (Image "image/png")) 1500 1501
                    (Uploaded "img2" "https://img/2") 8 Sample.fresh Sample.fresh
  = (Next (Forwarded already_active), Sample.fresh) /\
  ~ owns_active 1 2501 Sample.fresh.
Proof.
  split.
  - refine (proj1 (addNewAuctionItem_one_active
                     (Sample.listing_by 1 (Image "image/png")) 1500 1501
                     (Uploaded "img2" "https://img/2") 8 Sample.fresh Sample.fresh) _ _).
    + reflexivity.
    + exists 7%nat, Sample.lot. split; [reflexivity|]. split; [reflexivity|]. simpl. lia.
  - refine (proj1 (proj1 (proj2 (proj2 (addNewAuctionItem_one_active
                     (Sample.listing_by 1 (Image "image/png")) 2500 2501
                     (Uploaded "img2" "https://img/2") 8 Sample.fresh Sample.fresh)))
                     201%N _ _ _)).
    reflexivity.
Defined.

End ListingClaims.


(** * More of the two controllers *)

(** ** [placeBid]: what every call does *)

Section PlaceBidCases.
Import Txn Model Bidding BiddingFacts Ledger.

(** Every call either answers with an error and writes nothing, or passed
    the checks on [s0] and committed one of the two branches on [s1]. *)
Lemma placeBid_cases req s0 s1 :
  (exists e, placeBid req s0 s1 = (Next e, s1)) \/
  (exists id a0 a n,
      bid_params_id req = ObjectId id /\
      auctions s0 !! id = Some a0 /\
      truthy (body_amount req) = true /\
      ToNumber (body_amount req) = Some n /\
      currentBid a0 < n /\ startingBid a0 <= n /\
      auctions s1 !! id = Some a /\
      ((exists i bid j entry,
           existingBid (bid_user req) id s1 = Some (i, bid) /\
           existingBidInAuction (bid_user req) a = Some (j, entry) /\
           placeBid req s0 s1
           = (Json 201%N (body_amount req), revised id n i bid j entry a s1)) \/
       (exists d,
           (existingBid (bid_user req) id s1 = None
            \/ existingBidInAuction (bid_user req) a = None) /\
           users s1 !! bid_user req = Some d /\
           placeBid req s0 s1
           = (Json 201%N (body_amount req), inserted id (bid_user req) n d a s1)))).
Proof.
  unfold placeBid. destruct (placeBid_checks req s0) as [e|id] eqn:Hc; [left; by eexists|].
  apply placeBid_checks_inr in Hc as (Hp & a0 & Ha0 & Ht & Hle & Hlt).
  pose proof (placeBid_commit_outcome id req s1) as Hout.
  destruct (placeBid_commit id req s1) as [r s2].
  assert (forall n, stored_as (body_amount req) = Some n ->
                    ToNumber (body_amount req) = Some n /\
                    currentBid a0 < n /\ startingBid a0 <= n) as Hn.
  { intros n Hs. assert (ToNumber (body_amount req) = Some n) as Hnum.
    { by destruct (body_amount req). }
    unfold le_num, lt_num in *. rewrite Hnum in Hle, Hlt. split; [done|]. lia. }
  inversion Hout as [Ha|a Ha Hnone Hu|a Ha Hv|a i bid j entry n Ha Hb He Hv
                     |a d n Ha Hnone Hu Hv]; subst;
    try (left; by eexists).
  - right. exists id, a0, a, n. destruct (Hn n Hv) as (? & ? & ?).
    repeat (split; [done|]). left. by exists i, bid, j, entry.
  - right. exists id, a0, a, n. destruct (Hn n Hv) as (? & ? & ?).
    repeat (split; [done|]). right. by exists d.
Qed.

End PlaceBidCases.

Section MoreListFacts.
Context {A : Type} (Q : A -> Prop) `{!forall x, Decision (Q x)}.

Lemma filter_insert_outside (l : list A) i x y :
  l !! i = Some x -> ~ Q x -> ~ Q y -> filter Q (<[i := y]> l) = filter Q l.
Proof.
  revert i. induction l as [|z l IH]; intros [|i] Hi Hx Hy; simplify_eq/=.
  - by rewrite !filter_cons_False.
  - destruct (decide (Q z)).
    + rewrite !filter_cons_True by done. f_equal. by apply IH.
    + rewrite !filter_cons_False by done. by apply IH.
Qed.

Lemma filter_snoc_outside (l : list A) y :
  ~ Q y -> filter Q (l ++ [y]) = filter Q l.
Proof.
  intros Hy. rewrite filter_app, filter_cons_False by done.
  by rewrite filter_nil, app_nil_r.
Qed.

End MoreListFacts.

Section PlaceBidMore.
Import Txn Model Bidding BiddingFacts Ledger.

(** X1: a call of [placeBid] that answers with an error, whichever it is
    and wherever it was raised, leaves the store exactly as the
    transaction found it. *)
Theorem placeBid_error_writes_nothing req s0 s1 e :
  (placeBid req s0 s1).1 = Next e -> (placeBid req s0 s1).2 = s1.
Proof.
  destruct (placeBid_cases req s0 s1) as [[e' ->]|(id & a0 & a & n & _ & _ & _ & _ & _ & _
                                                   & _ & Hbranch)]; [done|].
  destruct Hbranch as [(i & bid & j & entry & _ & _ & ->)|(d & _ & _ & ->)]; done.
Qed.

Lemma placeBid_error_writes_nothing_witness :
  (placeBid (Sample.bid_by 9 (JNum 150)) Sample.fresh Sample.fresh).2 = Sample.fresh.
Proof.
  refine (placeBid_error_writes_nothing (Sample.bid_by 9 (JNum 150))
            Sample.fresh Sample.fresh (Forwarded user_not_found) _).
  reflexivity.
Defined.

(** X2: for an amount that converts to an integer held exactly,
    [placeBid] answers 201 exactly when the auction read first is there, the
    amount is truthy, above that auction's [currentBid] and not below its
    [startingBid], the auction is still there when the transaction runs, and
    the bidder either has both records already or has a user record to build
    them from.  It asks nothing else: neither the auction's time window nor
    who created it. *)
Theorem placeBid_accepts_iff req s0 s1 n :
  ToNumber (body_amount req) = Some n ->
  exact n ->
  ((exists st body, (placeBid req s0 s1).1 = Json st body) <->
   exists id a0 a,
     bid_params_id req = ObjectId id /\
     auctions s0 !! id = Some a0 /\
     truthy (body_amount req) = true /\
     currentBid a0 < n /\ startingBid a0 <= n /\
     auctions s1 !! id = Some a /\
     ((is_Some (existingBid (bid_user req) id s1)
       /\ is_Some (existingBidInAuction (bid_user req) a))
      \/ is_Some (users s1 !! bid_user req))).
Proof.
  intros Hn _. split.
  - intros (st & body & Hreply).
    destruct (placeBid_cases req s0 s1)
      as [[e He]|(id & a0 & a & n' & Hp & Ha0 & Ht & Hn' & Hlt & Hge & Ha & Hbranch)].
    { by rewrite He in Hreply. }
    rewrite Hn in Hn'. injection Hn' as <-.
    exists id, a0, a. repeat (split; [done|]).
    destruct Hbranch as [(i & bid & j & entry & Hb & He & _)|(d & _ & Hu & _)].
    + left. by rewrite Hb, He.
    + right. by rewrite Hu.
  - intros (id & a0 & a & Hp & Ha0 & Ht & Hlt & Hge & Ha & Hhave).
    assert (placeBid_checks req s0 = inr id) as Hc.
    { apply placeBid_checks_inr. split; [done|]. exists a0.
      unfold le_num, lt_num. rewrite Hn. repeat split; try done.
      - by apply Z.leb_gt.
      - by apply Z.ltb_ge. }
    pose proof (stored_as_truthy _ _ Ht Hn) as Hv.
    unfold placeBid. rewrite Hc. unfold placeBid_commit, withTransaction.
    destruct (existingBid (bid_user req) id s1) as [[i bid]|] eqn:Hb.
    + destruct (existingBidInAuction (bid_user req) a) as [[j entry]|] eqn:He.
      * rewrite (placeBid_body_revise _ _ _ _ _ _ _ _ _ Ha Hb He), Hv. by eexists _, _.
      * rewrite (placeBid_body_insert _ _ _ _ _ Ha (or_intror He)), Hv.
        destruct Hhave as [[_ [? ?]]|[d Hd]]; [done|]. rewrite Hd. by eexists _, _.
    + rewrite (placeBid_body_insert _ _ _ _ _ Ha (or_introl Hb)), Hv.
      destruct Hhave as [[[? ?] _]|[d Hd]]; [done|]. rewrite Hd. by eexists _, _.
Qed.

Lemma placeBid_accepts_iff_witness :
  exists st body,
    (placeBid (Sample.bid_by 2 (JNum 200)) Sample.ann_leads Sample.ann_leads).1
    = Json st body.
Proof.
  refine (proj2 (placeBid_accepts_iff (Sample.bid_by 2 (JNum 200))
                   Sample.ann_leads Sample.ann_leads 200 eq_refl
                   (exact_small 200 ltac:(lia))) _).
  exists 7%nat, (set_currentBid 150 (set_bids [mkBidEntry 2 "ann" None 150] Sample.lot)),
    (set_currentBid 150 (set_bids [mkBidEntry 2 "ann" None 150] Sample.lot)).
  split; [reflexivity|]. split; [reflexivity|]. split; [reflexivity|].
  split; [simpl; lia|]. split; [simpl; lia|]. split; [reflexivity|].
  left. split; by eexists.
Defined.

(** X3: a call of [placeBid] touches nothing but the bidder's own records
    in the one auction: no user record changes, no auction appears or
    disappears, every other auction is left as it was, in the auction
    itself only [bids] and [currentBid] can change, and the embedded entries
    of the other bidders and the standalone bids of every other (bidder,
    auction) pair stay as they were, in the same order. *)
Theorem placeBid_touches_only_the_bid req s0 s1 id :
  bid_params_id req = ObjectId id ->
  users (placeBid req s0 s1).2 = users s1 /\
  (forall id', is_Some (auctions (placeBid req s0 s1).2 !! id')
               <-> is_Some (auctions s1 !! id')) /\
  (forall id', id' <> id -> auctions (placeBid req s0 s1).2 !! id' = auctions s1 !! id') /\
  (forall a1 a2,
      auctions s1 !! id = Some a1 -> auctions (placeBid req s0 s1).2 !! id = Some a2 ->
      listing a2 = listing a1 /\ startingBid a2 = startingBid a1 /\
      startTime a2 = startTime a1 /\ endTime a2 = endTime a1 /\
      highestBidder a2 = highestBidder a1 /\
      commissionCalculated a2 = commissionCalculated a1 /\
      createdBy a2 = createdBy a1 /\
      filter (fun e => userId e <> bid_user req) (bids a2)
      = filter (fun e => userId e <> bid_user req) (bids a1)) /\
  filter (fun b => ~ (bidderId b = bid_user req /\ auctionItem b = id))
         (bidDocs (placeBid req s0 s1).2)
  = filter (fun b => ~ (bidderId b = bid_user req /\ auctionItem b = id)) (bidDocs s1).
Proof.
  intros Hp.
  destruct (placeBid_cases req s0 s1)
    as [[e ->]|(id' & a0 & a & n & Hp' & _ & _ & _ & _ & _ & Ha & Hbranch)].
  { simpl. split; [done|]. split; [done|]. split; [done|]. split; [|done].
    intros a1 a2 H1 H2. by simplify_eq. }
  rewrite Hp in Hp'. injection Hp' as <-.
  destruct Hbranch as [(i & bid & j & entry & Hb & He & ->)|(d & _ & _ & ->)]; simpl.
  - apply list_find_Some in Hb as (Hi & Hbid & _).
    apply list_find_Some in He as (Hj & Hentry & _).
    split; [done|]. split; [|split; [|split]].
    + intros id'. destruct (decide (id = id')) as [<-|Hne].
      * rewrite lookup_insert_eq, Ha. split; by eexists.
      * by rewrite lookup_insert_ne.
    + intros id' Hne. by rewrite lookup_insert_ne.
    + intros a1 a2 H1. rewrite lookup_insert_eq. intros [= <-].
      rewrite Ha in H1. injection H1 as <-. simpl. repeat (split; [done|]).
      apply filter_insert_outside with entry; [done|by intros []|by intros []].
    + apply filter_insert_outside with bid; [done|by intros []|by intros []].
  - split; [done|]. split; [|split; [|split]].
    + intros id'. destruct (decide (id = id')) as [<-|Hne].
      * rewrite lookup_insert_eq, Ha. split; by eexists.
      * by rewrite lookup_insert_ne.
    + intros id' Hne. by rewrite lookup_insert_ne.
    + intros a1 a2 H1. rewrite lookup_insert_eq. intros [= <-].
      rewrite Ha in H1. injection H1 as <-. simpl. repeat (split; [done|]).
      apply filter_snoc_outside. by intros [].
    + apply filter_snoc_outside. by intros [].
Qed.

Lemma placeBid_touches_only_the_bid_witness :
  users (placeBid (Sample.bid_by 2 (JNum 150)) Sample.fresh Sample.fresh).2
  = users Sample.fresh.
Proof.
  refine (proj1 (placeBid_touches_only_the_bid (Sample.bid_by 2 (JNum 150))
                   Sample.fresh Sample.fresh 7%nat _)).
  reflexivity.
Defined.

End PlaceBidMore.

(** ** [placeBid]: amounts and the price *)

Section PlaceBidAmounts.
Import Txn Model Bidding BiddingFacts Ledger.

(** X4: after a call of [placeBid] that answers 201, for an amount that
    converts to an integer [n] held exactly, the reply carries the amount as
    it was submitted, the auction's [currentBid] is [n], the auction holds an
    embedded entry of the bidder at [n], and the store holds a standalone bid
    of the bidder for this auction at [n]. *)
Theorem placeBid_records_the_amount req s0 s1 st body n :
  (placeBid req s0 s1).1 = Json st body ->
  ToNumber (body_amount req) = Some n ->
  exact n ->
  body = body_amount req /\
  exists id a2,
    bid_params_id req = ObjectId id /\
    auctions (placeBid req s0 s1).2 !! id = Some a2 /\
    currentBid a2 = n /\
    (exists e, e ∈ bids a2 /\ userId e = bid_user req /\ entryAmount e = n) /\
    (exists b, b ∈ bidDocs (placeBid req s0 s1).2 /\
               bidderId b = bid_user req /\ auctionItem b = id /\ amount b = n).
Proof.
  intros Hreply Hnum _. revert Hreply.
  destruct (placeBid_cases req s0 s1)
    as [[e ->]|(id & a0 & a & n' & Hp & _ & _ & Hn & _ & _ & Ha & Hbranch)]; [done|].
  rewrite Hnum in Hn. injection Hn as <-.
  destruct Hbranch as [(i & bid & j & entry & Hb & He & ->)|(d & _ & _ & ->)]; simpl.
  - intros [= _ <-]. split; [done|].
    apply list_find_Some in Hb as (Hi & [Hbid1 Hbid2] & _).
    apply list_find_Some in He as (Hj & Hentry & _).
    exists id. eexists. split; [done|].
    rewrite lookup_insert_eq. split; [done|]. split; [done|]. simpl. split.
    + exists (set_entryAmount n entry). split; [|done].
      apply list_elem_of_lookup. exists j. apply list_lookup_insert_eq.
      by eapply lookup_lt_Some.
    + exists (set_amount n bid). split; [|done].
      apply list_elem_of_lookup. exists i. apply list_lookup_insert_eq.
      by eapply lookup_lt_Some.
  - intros [= _ <-]. split; [done|].
    exists id. eexists. split; [done|].
    rewrite lookup_insert_eq. split; [done|]. split; [done|]. simpl. split.
    + eexists. split; [apply elem_of_app; right; apply list_elem_of_singleton; done|done].
    + eexists. split; [apply elem_of_app; right; apply list_elem_of_singleton; done|done].
Qed.

Lemma placeBid_records_the_amount_witness :
  exists a2,
    auctions (placeBid (Sample.bid_by 3 (JStr " 200 ")) Sample.ann_leads
                       Sample.ann_leads).2 !! 7%nat
    = Some a2 /\ currentBid a2 = 200.
Proof.
  destruct (placeBid_records_the_amount (Sample.bid_by 3 (JStr " 200 "))
              Sample.ann_leads Sample.ann_leads 201%N (JStr " 200 ") 200
              eq_refl eq_refl (exact_small 200 ltac:(lia)))
    as (_ & id & a2 & Hp & Ha2 & Hc & _).
  injection Hp as <-. exists a2. split; [exact Ha2 | exact Hc].
Defined.





(** One request served alone does not lower any auction's price. *)
Lemma placeBid_alone_step req s id a :
  auctions s !! id = Some a ->
  exists a', auctions (placeBid_alone req s).2 !! id = Some a' /\
             currentBid a <= currentBid a' /\ startingBid a' = startingBid a.
Proof.
  intros Hid. unfold placeBid_alone.
  destruct (placeBid_cases req s s)
    as [[e ->]|(id0 & a0 & a1 & n & Hp & Ha0 & _ & Hn & Hlt & _ & Ha & Hbranch)].
  { exists a. simpl. split; [done|]. split; [lia|done]. }
  rewrite Ha0 in Ha. injection Ha as <-.
  destruct Hbranch as [(i & bid & j & entry & _ & _ & ->)|(d & _ & _ & ->)]; simpl;
    (destruct (decide (id0 = id)) as [->|Hne];
     [rewrite lookup_insert_eq; rewrite Ha0 in Hid; injection Hid as <-;
      eexists; split; [done|]; simpl; split; [lia|done]
     |rewrite lookup_insert_ne by done; exists a; split; [done|]; split; [lia|done]]).
Qed.

(** X5: over any sequence of requests served one after the other, every
    auction stays in the store, keeps its [startingBid], and its
    [currentBid] never goes down. *)
Theorem placeBid_all_never_lowers_the_price reqs s id a :
  auctions s !! id = Some a ->
  exists a', auctions (placeBid_all reqs s) !! id = Some a' /\
             currentBid a <= currentBid a' /\ startingBid a' = startingBid a.
Proof.
  revert s a. induction reqs as [|req reqs IH]; intros s a Hid; simpl.
  - exists a. split; [done|]. split; [lia|done].
  - destruct (placeBid_alone_step req s id a Hid) as (a1 & H1 & Hle1 & Hsb1).
    destruct (IH _ _ H1) as (a' & H' & Hle' & Hsb').
    exists a'. split; [done|]. split; [lia|congruence].
Qed.

Lemma placeBid_all_never_lowers_the_price_witness :
  exists a',
    auctions (placeBid_all [Sample.bid_by 2 (JNum 150); Sample.bid_by 3 (JNum 140);
                            Sample.bid_by 3 (JNum 200)] Sample.fresh) !! 7%nat = Some a' /\
    0 <= currentBid a'.
Proof.
  destruct (placeBid_all_never_lowers_the_price
              [Sample.bid_by 2 (JNum 150); Sample.bid_by 3 (JNum 140);
               Sample.bid_by 3 (JNum 200)] Sample.fresh 7%nat Sample.lot eq_refl)
    as (a' & Ha' & Hle & _).
  exists a'. split; [exact Ha' | exact Hle].
Defined.

End PlaceBidAmounts.

(** ** The read handlers and [removeFromAuction] *)

Module Items.
Import Txn Model.

Definition invalid_id : Exn := ErrorHandler "Invalid Id format." (Some 400%N).
Definition not_found : Exn := ErrorHandler "Auction not found." (Some 404%N).

(** [Auction.find(..)]: the documents that match, each with its [_id].
    The queries below ask for no order. *)
Definition Auction_find (P : Auction -> Prop) `{!forall a, Decision (P a)} (s : Store)
  : list (AuctionId * Auction) :=
  map_to_list (filter (fun p => P p.2) (auctions s)).

(** Lines 294-300. *)
Definition getAllItems (s : Store) : Reply (list (AuctionId * Auction)) * Store :=
  (Json 200%N (Auction_find (fun _ => True) s), s).

(** Lines 319-325; [user] is [req.user._id]. *)
Definition getMyAuctionItems (user : UserId) (s : Store)
  : Reply (list (AuctionId * Auction)) * Store :=
  (Json 200%N (Auction_find (fun a => createdBy a = user) s), s).

(** [bids.sort((a, b) => b.amount - a.amount)]: a stable sort by falling
    amount.  The stable sort of a list is unique, so it is written here as
    an insertion sort: an entry goes in front of the first entry that is
    not above it. *)
Fixpoint insert_by_amount (e : BidEntry) (l : list BidEntry) : list BidEntry :=
  match l with
  | [] => [e]
  | x :: r =>
      if entryAmount x <=? entryAmount e then e :: l else x :: insert_by_amount e r
  end.

Fixpoint sort_by_amount (l : list BidEntry) : list BidEntry :=
  match l with
  | [] => []
  | e :: r => insert_by_amount e (sort_by_amount r)
  end.

(** Lines 302-317.  [sort] works in place on the array of the fetched
    document, which is not saved: the auction of the reply carries the
    sorted array, the store keeps the order it had. *)
Definition getAuctionDetails (id : IdParam) (s : Store)
  : Reply (Auction * list BidEntry) * Store :=
  match id with
  | Malformed => (Next (Forwarded invalid_id), s)
  | ObjectId id =>
      match auctions s !! id with
      | None => (Next (Forwarded not_found), s)
      | Some auctionItem =>
          let bidders := sort_by_amount (bids auctionItem) in
          (Json 200%N (set_bids bidders auctionItem, bidders), s)
      end
  end.

(** Lines 327-344. *)
Definition removeFromAuction (id : IdParam) (s : Store) : Reply string * Store :=
  match id with
  | Malformed => (Next (Forwarded invalid_id), s)
  | ObjectId id =>
      match auctions s !! id with
      | None => (Next (Forwarded not_found), s)
      | Some auctionItem =>
          (Json 200%N "Auction item deleted successfully."%string,
           set_auctions (delete id (auctions s)) s)
      end
  end.

End Items.

Section SortFacts.
Import Items.

Definition not_below (x y : BidEntry) : Prop := entryAmount y <= entryAmount x.

Lemma insert_by_amount_perm e l : insert_by_amount e l ≡ₚ e :: l.
Proof.
  induction l as [|x r IH]; simpl; [done|].
  destruct (entryAmount x <=? entryAmount e); [done|].
  rewrite IH. apply Permutation_swap.
Qed.

Lemma sort_by_amount_perm l : sort_by_amount l ≡ₚ l.
Proof.
  induction l as [|e r IH]; simpl; [done|].
  by rewrite insert_by_amount_perm, IH.
Qed.

Lemma insert_by_amount_sorted e l :
  StronglySorted not_below l -> StronglySorted not_below (insert_by_amount e l).
Proof.
  induction 1 as [|x r Hr IH Hx]; simpl.
  - repeat constructor.
  - destruct (entryAmount x <=? entryAmount e) eqn:Hle.
    + apply Z.leb_le in Hle. constructor; [by constructor|].
      constructor; [done|].
      eapply Forall_impl; [exact Hx|]. unfold not_below. simpl. intros; lia.
    + apply Z.leb_gt in Hle. constructor; [done|].
      rewrite insert_by_amount_perm. constructor; [|done]. unfold not_below. lia.
Qed.

Lemma sort_by_amount_sorted l : StronglySorted not_below (sort_by_amount l).
Proof.
  induction l as [|e r IH]; simpl; [constructor|]. by apply insert_by_amount_sorted.
Qed.

(** Entries of one amount keep the order they had. *)
Lemma insert_by_amount_stable v e l :
  StronglySorted not_below l ->
  filter (fun x => entryAmount x = v) (insert_by_amount e l)
  = filter (fun x => entryAmount x = v) (e :: l).
Proof.
  induction 1 as [|x r Hr IH Hx]; simpl; [done|].
  destruct (entryAmount x <=? entryAmount e) eqn:Hle; [done|].
  apply Z.leb_gt in Hle.
  destruct (decide (entryAmount x = v)) as [Hxv|Hxv].
  - rewrite (filter_cons_True _ x) by done. rewrite IH.
    rewrite (filter_cons_False _ e) by lia.
    rewrite (filter_cons_False _ e) by lia.
    by rewrite filter_cons_True.
  - rewrite (filter_cons_False _ x) by done. rewrite IH.
    destruct (decide (entryAmount e = v)).
    + rewrite !(filter_cons_True _ e) by done. by rewrite filter_cons_False.
    + rewrite !(filter_cons_False _ e) by done. by rewrite filter_cons_False.
Qed.

Lemma sort_by_amount_stable v l :
  filter (fun x => entryAmount x = v) (sort_by_amount l)
  = filter (fun x => entryAmount x = v) l.
Proof.
  induction l as [|e r IH]; simpl; [done|].
  rewrite insert_by_amount_stable by apply sort_by_amount_sorted.
  destruct (decide (entryAmount e = v)).
  - rewrite !filter_cons_True by done. by rewrite IH.
  - rewrite !filter_cons_False by done. by rewrite IH.
Qed.

End SortFacts.

Section ItemsFacts.
Import Txn Model Bidding BiddingFacts Ledger Items.

(** X6: for an auction that exists, [getAuctionDetails] answers 200 with
    the auction and its bidders: the bidders are the auction's embedded
    entries, each exactly once, by falling amount, entries of equal amount in
    the order they have in the auction; the auction of the reply carries that
    same list, and the store is not written. *)
Theorem getAuctionDetails_lists_by_amount id s a :
  auctions s !! id = Some a ->
  exists bidders,
    getAuctionDetails (ObjectId id) s = (Json 200%N (set_bids bidders a, bidders), s) /\
    bidders ≡ₚ bids a /\
    StronglySorted (fun x y => entryAmount y <= entryAmount x) bidders /\
    (forall v, filter (fun x => entryAmount x = v) bidders
               = filter (fun x => entryAmount x = v) (bids a)).
Proof.
  intros Ha. exists (sort_by_amount (bids a)).
  unfold getAuctionDetails. rewrite Ha. split; [done|].
  split; [apply sort_by_amount_perm|]. split; [apply sort_by_amount_sorted|].
  intros v. apply sort_by_amount_stable.
Qed.

Lemma getAuctionDetails_lists_by_amount_witness :
  exists bidders,
    getAuctionDetails (ObjectId 7) Sample.settled
    = (Json 200%N (set_bids bidders
                     (mkAuction Sample.vase 100 200 1000 2000
                                [mkBidEntry 2 "ann" None 150;
                                 mkBidEntry 3 "bob" (Some "bob.png") 200]
                                (Some 3%nat) true 1%nat), bidders), Sample.settled) /\
    bidders ≡ₚ [mkBidEntry 2 "ann" None 150; mkBidEntry 3 "bob" (Some "bob.png") 200].
Proof.
  destruct (getAuctionDetails_lists_by_amount 7%nat Sample.settled
              (mkAuction Sample.vase 100 200 1000 2000
                         [mkBidEntry 2 "ann" None 150;
                          mkBidEntry 3 "bob" (Some "bob.png") 200]
                         (Some 3%nat) true 1%nat) eq_refl)
    as (bidders & Hreply & Hperm & _).
  exists bidders. split; [exact Hreply | exact Hperm].
Defined.




(** X8: [removeFromAuction] on an auction that exists answers 200 and
    deletes that auction document and nothing else: every other auction,
    every user record (a winner's totals included) and every standalone bid,
    those of the deleted auction included, stay as they were.  It does not
    look at who asks, nor at whether the auction is running or settled.  In
    every other case it answers with an error and writes nothing. *)
Theorem removeFromAuction_deletes_only_the_auction id s :
  ((removeFromAuction id s).1 = Json 200%N "Auction item deleted successfully."%string
   <-> exists i, id = ObjectId i /\ is_Some (auctions s !! i)) /\
  (forall e, (removeFromAuction id s).1 = Next e -> (removeFromAuction id s).2 = s) /\
  users (removeFromAuction id s).2 = users s /\
  bidDocs (removeFromAuction id s).2 = bidDocs s /\
  (forall i, id = ObjectId i ->
             auctions (removeFromAuction id s).2 !! i = None /\
             forall i', i' <> i ->
                        auctions (removeFromAuction id s).2 !! i' = auctions s !! i').
Proof.
  unfold removeFromAuction. destruct id as [|i]; simpl.
  - split; [split; [done|by intros (i & ? & _)]|]. repeat split; done.
  - destruct (auctions s !! i) as [a|] eqn:Ha; simpl.
    + split; [split; [intros _; exists i; split; [done|by eexists] | done]|].
      split; [done|]. split; [done|]. split; [done|].
      intros i0 [= <-]. split; [apply lookup_delete_eq|].
      intros i' Hne. by apply lookup_delete_ne.
    + split; [split; [done|intros (i0 & [= <-] & [? ?]); congruence]|].
      split; [done|]. split; [done|]. split; [done|].
      intros i0 [= <-]. split; [done|]. done.
Qed.

Lemma removeFromAuction_deletes_only_the_auction_witness :
  auctions (removeFromAuction (ObjectId 7) Sample.settled).2 !! 7%nat = None.
Proof.
  exact (proj1 (proj2 (proj2 (proj2 (proj2
           (removeFromAuction_deletes_only_the_auction (ObjectId 7) Sample.settled))))
           7%nat eq_refl)).
Defined.

End ItemsFacts.

(** ** More on [republishItem] *)

Section RepublishMore.
Import Txn Model Bidding BiddingFacts Ledger Republish RepublishFacts Items.

(** The commit, computed from the conditions that the handler tests. *)
Lemma republishItem_run req now1 now2 s id a newStart newEnd users1 creator :
  rep_params_id req = ObjectId id ->
  rep_startTime req = Time newStart -> rep_endTime req = Time newEnd ->
  now1 <= newStart -> newStart < newEnd ->
  auctions s !! id = Some a -> endTime a <= now2 ->
  rollback a (users s) = Some users1 ->
  users1 !! rep_user req = Some creator ->
  republishItem req now1 now2 s
  = (Json 200%N (Some (reset_auction newStart newEnd a)),
     republished id (rep_user req) newStart newEnd a users1 creator s).
Proof.
  intros Hp Hst Hen Hnow Hwin Ha Hend Hroll Hcreator.
  unfold republishItem. rewrite Hp, Hst, Hen. simpl.
  rewrite (proj2 (Z.ltb_ge _ _) Hnow), (proj2 (Z.leb_gt _ _) Hwin).
  unfold withTransaction, republish_body, bind, Auction_findById, gets. rewrite Ha.
  rewrite (proj2 (Z.ltb_ge _ _) Hend).
  unfold castDate, Auction_save, Bid_deleteMany, User_save, User_findById, modify, ret, gets.
  unfold rollback in Hroll.
  destruct (highestBidder a) as [h|]; simpl.
  - destruct (users s !! h) as [hb|]; [|done]. simpl in *. injection Hroll as <-.
    change (set_auctionsWon (auctionsWon hb - 1)
              (set_moneySpent (moneySpent hb - currentBid a) hb))
      with (rolled_back (currentBid a) hb).
    rewrite Hcreator. simpl. by rewrite lookup_insert_eq.
  - injection Hroll as <-. rewrite Hcreator. simpl. by rewrite lookup_insert_eq.
Qed.

(** X9: [republishItem] answers 200 exactly when the id is well formed,
    both times are given and parse, the new start is not before the clock
    and is before the new end, the auction exists and its [endTime] is not
    after the clock, its highest bidder, if it has one, has a user record,
    and so has the requesting user.  It does not ask whether the requesting
    user created the auction. *)
Theorem republishItem_succeeds_iff req now1 now2 s :
  (exists st body, (republishItem req now1 now2 s).1 = Json st body) <->
  exists id a newStart newEnd,
    rep_params_id req = ObjectId id /\
    rep_startTime req = Time newStart /\ rep_endTime req = Time newEnd /\
    now1 <= newStart /\ newStart < newEnd /\
    auctions s !! id = Some a /\ endTime a <= now2 /\
    (forall h, highestBidder a = Some h -> is_Some (users s !! h)) /\
    is_Some (users s !! rep_user req).
Proof.
  split.
  - intros (st & body & Hreply).
    pose proof (republishItem_outcome req now1 now2 s) as Hout.
    destruct (republishItem req now1 now2 s) as [r s']. simpl in Hreply. subst r.
    inversion Hout as [|id a newStart newEnd users1 creator Hp Hst Hen Hnow Hwin Ha Hend
                        Hroll Hcreator]; subst.
    exists id, a, newStart, newEnd. repeat (split; [done|]).
    unfold rollback in Hroll. destruct (highestBidder a) as [h|].
    + destruct (users s !! h) as [hb|] eqn:Hhb; [|done]. simpl in Hroll.
      injection Hroll as <-. split.
      * intros h' [= <-]. by eexists.
      * destruct (decide (h = rep_user req)) as [<-|Hne]; [by eexists|].
        rewrite lookup_insert_ne in Hcreator by done. by eexists.
    + injection Hroll as <-. split; [done|by eexists].
  - intros (id & a & newStart & newEnd & Hp & Hst & Hen & Hnow & Hwin & Ha & Hend
            & Hhb & [c Hc]).
    assert (exists users1 creator, rollback a (users s) = Some users1
                                   /\ users1 !! rep_user req = Some creator)
      as (users1 & creator & Hroll & Hcreator).
    { unfold rollback. destruct (highestBidder a) as [h|].
      - destruct (Hhb h eq_refl) as [hb Hh]. rewrite Hh. simpl.
        destruct (decide (h = rep_user req)) as [<-|Hne].
        + eexists _, _. split; [done|]. apply lookup_insert_eq.
        + eexists _, _. split; [done|]. by rewrite lookup_insert_ne.
      - by eexists _, _. }
    rewrite (republishItem_run _ _ _ _ _ _ _ _ _ _ Hp Hst Hen Hnow Hwin Ha Hend
               Hroll Hcreator).
    by eexists _, _.
Qed.

(** X10: a call of [republishItem] that answers with an error, whichever
    it is, leaves the store as it was; one that goes through leaves every
    other auction as it was, keeps in order the standalone bids of every
    other auction, and changes no user record but those of the auction's
    highest bidder and of the requesting user. *)
Theorem republishItem_touches_only_its_auction req now1 now2 s id :
  rep_params_id req = ObjectId id ->
  (forall e, (republishItem req now1 now2 s).1 = Next e ->
             (republishItem req now1 now2 s).2 = s) /\
  (forall id', id' <> id ->
               auctions (republishItem req now1 now2 s).2 !! id' = auctions s !! id' /\
               filter (fun b => auctionItem b = id') (bidDocs (republishItem req now1 now2 s).2)
               = filter (fun b => auctionItem b = id') (bidDocs s)) /\
  (forall u, u <> rep_user req ->
             (forall a, auctions s !! id = Some a -> highestBidder a <> Some u) ->
             users (republishItem req now1 now2 s).2 !! u = users s !! u).
Proof.
  intros Hp. pose proof (republishItem_outcome req now1 now2 s) as Hout.
  destruct (republishItem req now1 now2 s) as [r s']. simpl.
  inversion Hout as [|id0 a newStart newEnd users1 creator Hp' Hst Hen Hnow Hwin Ha Hend
                      Hroll Hcreator]; subst.
  { repeat split; done. }
  rewrite Hp in Hp'. injection Hp' as <-.
  split; [done|]. split.
  - intros id' Hne. simpl. split; [by rewrite lookup_insert_ne|].
    rewrite list_filter_filter. apply list_filter_iff. intros b. split; [tauto|].
    intros ->. done.
  - intros u Hu Hnot. simpl. rewrite lookup_insert_ne by done.
    unfold rollback in Hroll. destruct (highestBidder a) as [h|] eqn:Hh.
    + destruct (users s !! h); [|done]. simpl in Hroll. injection Hroll as <-.
      rewrite lookup_insert_ne; [done|]. intros ->. by apply (Hnot a Ha).
    + by injection Hroll as <-.
Qed.

Lemma republishItem_touches_only_its_auction_witness :
  filter (fun b => auctionItem b = 9%nat)
         (bidDocs (republishItem (Sample.republish_by 1 6000 7000) 5000 5001
                                 Sample.settled).2)
  = filter (fun b => auctionItem b = 9%nat) (bidDocs Sample.settled).
Proof.
  refine (proj2 (proj1 (proj2 (republishItem_touches_only_its_auction
                                 (Sample.republish_by 1 6000 7000) 5000 5001
                                 Sample.settled 7%nat _)) 9%nat _)).
  - reflexivity.
  - lia.
Defined.

(** X11: once a republish has gone through, the auction runs again: until
    the clock reaches the new end, every further [republishItem] on it
    answers with an error and writes nothing. *)
Theorem republishItem_twice_refused req now1 now2 s st body req' now1' now2' id newEnd :
  (republishItem req now1 now2 s).1 = Json st body ->
  rep_params_id req = ObjectId id -> rep_params_id req' = ObjectId id ->
  rep_endTime req = Time newEnd ->
  now2' < newEnd ->
  exists e, republishItem req' now1' now2' (republishItem req now1 now2 s).2
            = (Next e, (republishItem req now1 now2 s).2).
Proof.
  intros Hreply Hp Hp' Hen Hclock.
  pose proof (republishItem_outcome req now1 now2 s) as Hout.
  destruct (republishItem req now1 now2 s) as [r s1]. simpl in *. subst r.
  inversion Hout as [|id0 a newStart newEnd0 users1 creator Hp0 Hst0 Hen0 _ _ Ha _ _ _]; subst.
  rewrite Hp in Hp0. injection Hp0 as <-. rewrite Hen in Hen0. injection Hen0 as <-.
  pose proof (republishItem_outcome req' now1' now2'
                (republished id (rep_user req) newStart newEnd a users1 creator s)) as Hout'.
  destruct (republishItem req' now1' now2' _) as [r' s2].
  inversion Hout' as [e|id1 a1 ? ? ? ? Hp1 _ _ _ _ Ha1 Hend1 _ _]; subst; [by eexists|].
  rewrite Hp' in Hp1. injection Hp1 as <-.
  simpl in Ha1. rewrite lookup_insert_eq in Ha1. injection Ha1 as <-. simpl in Hend1. lia.
Qed.

Lemma republishItem_twice_refused_witness :
  exists e,
    republishItem (Sample.republish_by 1 6500 8000) 5002 5003
                  (republishItem (Sample.republish_by 1 6000 7000) 5000 5001 Sample.settled).2
    = (Next e, (republishItem (Sample.republish_by 1 6000 7000) 5000 5001 Sample.settled).2).
Proof.
  refine (republishItem_twice_refused
            (Sample.republish_by 1 6000 7000) 5000 5001 Sample.settled 200%N _
            (Sample.republish_by 1 6500 8000) 5002 5003 7%nat 7000 _ _ _ _ _).
  - reflexivity.
  - reflexivity.
  - reflexivity.
  - reflexivity.
  - lia.
Defined.

End RepublishMore.

(** ** Handlers one after the other *)

Section Compositions.
Import Txn Model Bidding BiddingFacts Ledger Republish RepublishFacts Items.

(** What every handler answers for an id that no auction has. *)
Lemma absent_auction id s' :
  auctions s' !! id = None ->
  (forall req s0, bid_params_id req = ObjectId id ->
                  exists e, placeBid req s0 s' = (Next e, s')) /\
  (forall req, bid_params_id req = ObjectId id ->
               placeBid_alone req s' = (Next (Forwarded Bidding.not_found), s')) /\
  getAuctionDetails (ObjectId id) s' = (Next (Forwarded Items.not_found), s') /\
  removeFromAuction (ObjectId id) s' = (Next (Forwarded Items.not_found), s') /\
  (forall req now1 now2, rep_params_id req = ObjectId id ->
                         exists e, republishItem req now1 now2 s' = (Next e, s')).
Proof.
  intros Hgone. split; [|split; [|split; [|split]]].
  - intros req s0 Hp.
    destruct (placeBid_cases req s0 s')
      as [He|(id' & _ & a' & _ & Hp' & _ & _ & _ & _ & _ & Ha' & _)]; [done|].
    rewrite Hp in Hp'. injection Hp' as <-. congruence.
  - intros req Hp. unfold placeBid_alone, placeBid, placeBid_checks. by rewrite Hp, Hgone.
  - unfold getAuctionDetails. by rewrite Hgone.
  - unfold removeFromAuction. by rewrite Hgone.
  - intros req now1 now2 Hp.
    pose proof (republishItem_outcome req now1 now2 s') as Hout.
    destruct (republishItem req now1 now2 s') as [r s2].
    inversion Hout as [e|id1 a1 ? ? ? ? Hp1 _ _ _ _ Ha1 _ _ _]; subst; [by eexists|].
    rewrite Hp in Hp1. injection Hp1 as <-. congruence.
Qed.

(** X12: once [removeFromAuction] has deleted an auction, every handler
    that is given its id answers with an error and writes nothing:
    [placeBid] (also one that had read the auction before the deletion),
    [getAuctionDetails], [republishItem] and a second [removeFromAuction];
    served alone, [placeBid] answers "Auction Item not found." and the two
    others "Auction not found.". *)
Theorem removed_auction_is_gone id s :
  is_Some (auctions s !! id) ->
  (forall req s0, bid_params_id req = ObjectId id ->
                  exists e, placeBid req s0 (removeFromAuction (ObjectId id) s).2
                            = (Next e, (removeFromAuction (ObjectId id) s).2)) /\
  (forall req, bid_params_id req = ObjectId id ->
               placeBid_alone req (removeFromAuction (ObjectId id) s).2
               = (Next (Forwarded Bidding.not_found), (removeFromAuction (ObjectId id) s).2)) /\
  getAuctionDetails (ObjectId id) (removeFromAuction (ObjectId id) s).2
  = (Next (Forwarded Items.not_found), (removeFromAuction (ObjectId id) s).2) /\
  removeFromAuction (ObjectId id) (removeFromAuction (ObjectId id) s).2
  = (Next (Forwarded Items.not_found), (removeFromAuction (ObjectId id) s).2) /\
  (forall req now1 now2, rep_params_id req = ObjectId id ->
                         exists e, republishItem req now1 now2
                                     (removeFromAuction (ObjectId id) s).2
                                   = (Next e, (removeFromAuction (ObjectId id) s).2)).
Proof.
  intros [a Ha]. apply absent_auction.
  unfold removeFromAuction. rewrite Ha. simpl. apply lookup_delete_eq.
Qed.

Lemma removed_auction_is_gone_witness :
  getAuctionDetails (ObjectId 7) (removeFromAuction (ObjectId 7) Sample.settled).2
  = (Next (Forwarded Items.not_found), (removeFromAuction (ObjectId 7) Sample.settled).2).
Proof.
  refine (proj1 (proj2 (proj2 (removed_auction_is_gone 7%nat Sample.settled _)))).
  by eexists.
Defined.



End Compositions.

(** ** More on [addNewAuctionItem] *)

Section ListingMore.
Import Txn Model BiddingFacts Listings Items.

(** The creation, computed from what it tests. *)
Lemma Auction_create_run req public_id secure_url newId s :
  Auction_create req public_id secure_url newId s =
  match stored_as (new_startingBid req) with
  | None => inl (Thrown CastError)
  | Some sb =>
      match storedDate (new_startTime req) with
      | None => inl (Thrown CastError)
      | Some st =>
          match storedDate (new_endTime req) with
          | None => inl (Thrown CastError)
          | Some en =>
              match auctions s !! newId with
              | Some _ => inl (Thrown DuplicateKey)
              | None =>
                  let a := new_auction
                             (mkListing (new_title req) (new_description req)
                                        (new_category req) (new_condition req)
                                        public_id secure_url)
                             sb st en (new_user req) in
                  inr (a, set_auctions (<[newId := a]> (auctions s)) s)
              end
          end
      end
  end.
Proof.
  unfold Auction_create, bind. rewrite castNumber_run.
  destruct (stored_as (new_startingBid req)) as [sb|]; [|done].
  unfold castDate, gets, Auction_save, modify, ret, throw.
  destruct (storedDate (new_startTime req)) as [st|]; [|done].
  destruct (storedDate (new_endTime req)) as [en|]; [|done].
  by destruct (auctions s !! newId).
Qed.

Lemma validate_truthy_startingBid req now :
  addNewAuctionItem_validate req now = None -> truthy (new_startingBid req) = true.
Proof.
  unfold addNewAuctionItem_validate. destruct (new_files req); [done|done|].
  destruct (negb (bool_decide _)); [done|].
  destruct (truthy (new_startingBid req)); [done|].
  by destruct (truthy (new_title req)), (truthy (new_description req)),
       (truthy (new_category req)), (truthy (new_condition req)).
Qed.

(** What a creation that went through has made. *)
Lemma addNewAuctionItem_made req now1 now2 up newId s0 s1 st a :
  (addNewAuctionItem req now1 now2 up newId s0 s1).1 = Json st a ->
  createdBy a = new_user req /\
  ToNumber (new_startingBid req) = Some (startingBid a) /\
  storedDate (new_startTime req) = Some (startTime a) /\
  storedDate (new_endTime req) = Some (endTime a) /\
  up = Uploaded (image_public_id (listing a)) (image_url (listing a)) /\
  bids a = [] /\
  auctions s1 !! newId = None /\
  (addNewAuctionItem req now1 now2 up newId s0 s1).2
  = mkStore (users s1) (<[newId := a]> (auctions s1)) (bidDocs s1).
Proof.
  unfold addNewAuctionItem, addNewAuctionItem_checks.
  destruct (addNewAuctionItem_validate req now1) as [e|] eqn:Hval; [done|].
  pose proof (validate_truthy_startingBid _ _ Hval) as Htruthy.
  destruct (bool_decide _); [done|].
  unfold addNewAuctionItem_create. destruct up as [| | |public_id secure_url]; [done|done|done|].
  rewrite Auction_create_run.
  assert (stored_as (new_startingBid req) = ToNumber (new_startingBid req)) as Hsb.
  { by destruct (new_startingBid req). }
  rewrite Hsb. destruct (ToNumber (new_startingBid req)) as [sb|]; [|done].
  destruct (storedDate (new_startTime req)) as [t1|] eqn:Ht1; simpl; [|done].
  destruct (storedDate (new_endTime req)) as [t2|] eqn:Ht2; simpl; [|done].
  destruct (auctions s1 !! newId) as [taken|] eqn:Hfree; simpl; [done|].
  intros [= _ <-]. simpl. repeat split; done.
Qed.

(** A creation that did not go through has written nothing. *)
Lemma addNewAuctionItem_error req now1 now2 up newId s0 s1 e :
  (addNewAuctionItem req now1 now2 up newId s0 s1).1 = Next e ->
  (addNewAuctionItem req now1 now2 up newId s0 s1).2 = s1.
Proof.
  unfold addNewAuctionItem. destruct (addNewAuctionItem_checks _ _ _ _); [done|].
  unfold addNewAuctionItem_create. destruct up as [| | |public_id secure_url]; [done|done|done|].
  by destruct (Auction_create _ _ _ _ _) as [?|[? ?]].
Qed.

(** X14: for a starting bid that converts to an integer that a number
    holds exactly, [addNewAuctionItem] answers 201 exactly when the request
    passes the checks on its own content, the requesting user owns no
    auction that ends after the clock in the store that the query reads, the
    image host answers with an upload, the store takes the two times as they
    came in the body, and the id drawn for the document is free.  The auction
    it then creates, and returns, belongs to the requesting user and carries
    that starting bid, the image of the upload, and the instants that the
    store made of the raw times: the checks on the window bind only what
    [new Date] parses.  The auction is added under the new id and nothing
    else in the store changes; in every other case the store is left as it
    was. *)
Theorem addNewAuctionItem_creates_iff req now1 now2 up newId s0 s1 sb :
  ToNumber (new_startingBid req) = Some sb ->
  exact sb ->
  ((exists st a, (addNewAuctionItem req now1 now2 up newId s0 s1).1 = Json st a) <->
   addNewAuctionItem_validate req now1 = None /\
   ~ owns_active (new_user req) now2 s0 /\
   (exists public_id secure_url, up = Uploaded public_id secure_url) /\
   (exists st en, storedDate (new_startTime req) = Some st /\
                  storedDate (new_endTime req) = Some en) /\
   auctions s1 !! newId = None) /\
  (forall st a, (addNewAuctionItem req now1 now2 up newId s0 s1).1 = Json st a ->
     createdBy a = new_user req /\
     startingBid a = sb /\
     storedDate (new_startTime req) = Some (startTime a) /\
     storedDate (new_endTime req) = Some (endTime a) /\
     up = Uploaded (image_public_id (listing a)) (image_url (listing a)) /\
     (addNewAuctionItem req now1 now2 up newId s0 s1).2
     = mkStore (users s1) (<[newId := a]> (auctions s1)) (bidDocs s1)) /\
  (forall e, (addNewAuctionItem req now1 now2 up newId s0 s1).1 = Next e ->
             (addNewAuctionItem req now1 now2 up newId s0 s1).2 = s1).
Proof.
  intros Hsb _. split; [|split].
  - split.
    + intros (st & a & Hreply).
      destruct (addNewAuctionItem_made _ _ _ _ _ _ _ _ _ Hreply)
        as (_ & _ & Hst & Hen & Hup & _ & Hfree & _).
      revert Hreply. unfold addNewAuctionItem, addNewAuctionItem_checks.
      destruct (addNewAuctionItem_validate req now1) as [e|] eqn:Hval; [done|].
      destruct (bool_decide (0 < length (active_auctions_of (new_user req) now2 s0))%nat)
        eqn:Hact; [done|].
      apply bool_decide_eq_false in Hact. rewrite active_auctions_of_nonempty in Hact.
      intros _. split; [done|]. split; [done|]. split; [by eexists _, _|].
      split; [by eexists _, _|done].
    + intros (Hval & Hno & (public_id & secure_url & ->) & (st & en & Hst & Hen) & Hfree).
      unfold addNewAuctionItem, addNewAuctionItem_checks. rewrite Hval.
      rewrite bool_decide_eq_false_2 by by rewrite active_auctions_of_nonempty.
      unfold addNewAuctionItem_create. rewrite Auction_create_run.
      rewrite (stored_as_truthy _ _ (validate_truthy_startingBid _ _ Hval) Hsb).
      rewrite Hst, Hen, Hfree. by eexists _, _.
  - intros st a Hreply.
    destruct (addNewAuctionItem_made _ _ _ _ _ _ _ _ _ Hreply)
      as (Hby & Hbid & Hst & Hen & Hup & _ & _ & Hstore).
    repeat (split; [done|]). split; [congruence|]. by repeat (split; [done|]).
  - apply addNewAuctionItem_error.
Qed.

(** X15: while an auction created through [addNewAuctionItem] is running,
    the same user cannot create another: a later request of that user that
    passes the checks on its own content, served on the store that the
    creation left and before the clock reaches the end of the created
    auction, is answered "You already have one active auction." and writes
    nothing. *)
Theorem addNewAuctionItem_second_refused
        req now1 now2 up newId s0 s1 st a req' now1' now2' up' newId' s2 :
  (addNewAuctionItem req now1 now2 up newId s0 s1).1 = Json st a ->
  new_user req' = new_user req ->
  addNewAuctionItem_validate req' now1' = None ->
  now2' < endTime a ->
  addNewAuctionItem req' now1' now2' up' newId'
                    (addNewAuctionItem req now1 now2 up newId s0 s1).2 s2
  = (Next (Forwarded already_active), s2).
Proof.
  intros Hreply Huser Hval Hclock.
  destruct (addNewAuctionItem_made _ _ _ _ _ _ _ _ _ Hreply)
    as (Hby & _ & _ & _ & _ & _ & _ & ->).
  unfold addNewAuctionItem, addNewAuctionItem_checks. rewrite Hval.
  rewrite bool_decide_eq_true_2; [done|].
  apply active_auctions_of_nonempty. exists newId, a. simpl.
  rewrite lookup_insert_eq. split; [done|]. split; [congruence|done].
Qed.

End ListingMore.

Section ListingWitnesses.
Import Txn Model Listings Items.

(** A form whose two times are values that [new Date] does not parse and
    that the store takes: no check on the window applies to them. *)
Definition digits_form : NewAuctionRequest :=
  mkNewAuctionRequest (Image "image/png") 1 (JStr "Lamp") (JStr "A lamp") (JStr "Home")
                      (JStr "New") (JStr "20") (BadTime (Some 5000000))
                      (BadTime (Some 1000000)).

Lemma addNewAuctionItem_creates_iff_witness :
  (addNewAuctionItem digits_form 6000000 6000001
                     (Uploaded "img2" "https://img/2") 8 Sample.fresh Sample.fresh).2
  = mkStore (users Sample.fresh)
            (<[8%nat := new_auction
                          (mkListing (JStr "Lamp") (JStr "A lamp") (JStr "Home") (JStr "New")
                                     "img2" "https://img/2") 20 5000000 1000000 1%nat]>
               (auctions Sample.fresh))
            (bidDocs Sample.fresh).
Proof.
  refine (proj2 (proj2 (proj2 (proj2 (proj2
           (proj1 (proj2 (addNewAuctionItem_creates_iff
                            digits_form 6000000 6000001
                            (Uploaded "img2" "https://img/2") 8 Sample.fresh Sample.fresh
                            20 _ _))
                  201%N _ _)))))).
  - reflexivity.
  - apply exact_small. lia.
  - reflexivity.
Defined.

Lemma addNewAuctionItem_second_refused_witness :
  addNewAuctionItem
    (mkNewAuctionRequest (Image "image/webp") 1 (JStr "Desk") (JStr "A desk") (JStr "Home")
                         (JStr "Used") (JNum 35) (Time 3600) (Time 5000))
    3500 3501 (Uploaded "img3" "https://img/3") 9
    (addNewAuctionItem (Sample.listing_by 1 (Image "image/png")) 2500 2501
                       (Uploaded "img2" "https://img/2") 8 Sample.fresh Sample.fresh).2
    Sample.fresh
  = (Next (Forwarded already_active), Sample.fresh).
Proof.
  refine (addNewAuctionItem_second_refused
            (Sample.listing_by 1 (Image "image/png")) 2500 2501
            (Uploaded "img2" "https://img/2") 8 Sample.fresh Sample.fresh 201%N
            (new_auction
               (mkListing (JStr "Lamp") (JStr "A lamp") (JStr "Home") (JStr "New")
                          "img2" "https://img/2") 20 3000 4000 1%nat)
            _ 3500 3501 (Uploaded "img3" "https://img/3") 9 Sample.fresh _ _ _ _).
  - reflexivity.
  - reflexivity.
  - reflexivity.
  - simpl. lia.
Defined.

(** X16: [getMyAuctionItems] answers 200 with exactly the auctions whose
    [createdBy] is the requesting user, each once, and [getAllItems] with
    exactly the auctions of the store, each once, so that the first list is
    part of the second; neither writes. *)
Theorem getMyAuctionItems_lists_own_auctions user s :
  exists mine every,
    getMyAuctionItems user s = (Json 200%N mine, s) /\
    getAllItems s = (Json 200%N every, s) /\
    NoDup mine /\ NoDup every /\
    (forall id a, (id, a) ∈ mine <-> auctions s !! id = Some a /\ createdBy a = user) /\
    (forall id a, (id, a) ∈ every <-> auctions s !! id = Some a) /\
    mine ⊆ every.
Proof.
  eexists _, _. split; [done|]. split; [done|].
  split; [apply NoDup_map_to_list|]. split; [apply NoDup_map_to_list|].
  assert (forall id a,
             (id, a) ∈ Auction_find (fun a => createdBy a = user) s
             <-> auctions s !! id = Some a /\ createdBy a = user) as Hmine.
  { intros id a. unfold Auction_find. by rewrite elem_of_map_to_list, map_lookup_filter_Some. }
  assert (forall id a, (id, a) ∈ Auction_find (fun _ => True) s <-> auctions s !! id = Some a)
    as Hevery.
  { intros id a. unfold Auction_find.
    rewrite elem_of_map_to_list, map_lookup_filter_Some. simpl. tauto. }
  split; [done|]. split; [done|].
  intros [id a] Hin. apply Hevery. by apply Hmine in Hin as [? _].
Qed.

(** X17: an auction that [addNewAuctionItem] has created is at once among
    the auctions that [getMyAuctionItems] lists for its creator and that
    [getAllItems] lists, under the id it was given, and [getAuctionDetails]
    on that id answers with it. *)
Theorem created_auction_is_listed req now1 now2 up newId s0 s1 st a :
  (addNewAuctionItem req now1 now2 up newId s0 s1).1 = Json st a ->
  (exists mine, getMyAuctionItems (new_user req)
                  (addNewAuctionItem req now1 now2 up newId s0 s1).2
                = (Json 200%N mine, (addNewAuctionItem req now1 now2 up newId s0 s1).2)
                /\ (newId, a) ∈ mine) /\
  (exists every, getAllItems (addNewAuctionItem req now1 now2 up newId s0 s1).2
                 = (Json 200%N every, (addNewAuctionItem req now1 now2 up newId s0 s1).2)
                 /\ (newId, a) ∈ every) /\
  exists bidders,
    getAuctionDetails (ObjectId newId) (addNewAuctionItem req now1 now2 up newId s0 s1).2
    = (Json 200%N (set_bids bidders a, bidders),
       (addNewAuctionItem req now1 now2 up newId s0 s1).2)
    /\ bidders ≡ₚ bids a.
Proof.
  intros Hreply.
  destruct (addNewAuctionItem_made _ _ _ _ _ _ _ _ _ Hreply)
    as (Hby & _ & _ & _ & _ & _ & _ & ->).
  split; [|split].
  - eexists. split; [done|]. unfold Auction_find.
    apply elem_of_map_to_list, map_lookup_filter_Some. simpl.
    by rewrite lookup_insert_eq.
  - eexists. split; [done|]. unfold Auction_find.
    apply elem_of_map_to_list, map_lookup_filter_Some. simpl.
    by rewrite lookup_insert_eq.
  - eexists. unfold getAuctionDetails. simpl. rewrite lookup_insert_eq.
    split; [done|]. apply sort_by_amount_perm.
Qed.

Lemma created_auction_is_listed_witness :
  exists every,
    getAllItems (addNewAuctionItem (Sample.listing_by 1 (Image "image/png")) 2500 2501
                   (Uploaded "img2" "https://img/2") 8 Sample.fresh Sample.fresh).2
    = (Json 200%N every,
       (addNewAuctionItem (Sample.listing_by 1 (Image "image/png")) 2500 2501
                          (Uploaded "img2" "https://img/2") 8 Sample.fresh Sample.fresh).2).
Proof.
  destruct (created_auction_is_listed
              (Sample.listing_by 1 (Image "image/png")) 2500 2501
              (Uploaded "img2" "https://img/2") 8 Sample.fresh Sample.fresh 201%N _ eq_refl)
    as (_ & (every & Hall & _) & _).
  exists every. exact Hall.
Defined.

End ListingWitnesses.

(** ** The ledger under every handler *)

Section LedgerReachable.
Import Txn Model Bidding BiddingFacts Ledger Republish RepublishFacts Listings Items.






End LedgerReachable.

Section Reachable.
Import Txn Model Bidding BiddingFacts Ledger Republish RepublishFacts Listings Items.











End Reachable.
